(** * KitchenTimerClock: the controller loop of the sketch, and its properties

    A shallow embedding of [KitchenTimerClock.ino].  The sketch runs on an
    ATmega328 class board (toneAC on pins 9/10, I2C on A4/A5): [byte] is
    8 bits, [int] and [unsigned] are 16 bits, [unsigned long] is 32 bits.
    Every C integer is a [Z] and each wrap-around is written out.

    One call of [loop()] is the function [loop], the composition of the
    blocks of the source in their order.  What the hardware delivers during
    one call (the two readings of [millis()], the encoder count, the two
    button edges, the light reading) is the record [Input].

    The segment buffer [displayData] with [showClock], [showTimer] and
    [refreshDisplay], the tone sequencer [bellSound] and the write to the
    RTC in [saveTimeToRTC] only produce output, nothing in the controller
    reads them back: they are functions of their own, beside [loop], and
    the record [State] does not carry their results. *)

From Stdlib Require Import ZArith Bool List Lia.
Import ListNotations.

Local Open Scope Z_scope.

(** ** Machine integers *)

Module MachineInt.

(** [byte] *)
Definition u8 (z : Z) : Z := z mod 256.
(** [unsigned] *)
Definition u16 (z : Z) : Z := z mod 65536.
(** [unsigned long] *)
Definition u32 (z : Z) : Z := z mod 4294967296.
(** [int]: two's complement on 16 bits *)
Definition s16 (z : Z) : Z :=
  let r := z mod 65536 in if r <? 32768 then r else r - 65536.

(** The Arduino core defines [abs] as a macro,
    [#define abs(x) ((x)>0?(x):-(x))], so its result has the type of its
    argument.  On an [int]: *)
Definition abs_int (x : Z) : Z := s16 (if x >? 0 then x else - x).

(** On an [unsigned] the comparison and the negation are unsigned ones:
    the macro gives back [x] unless [x] is [0], and [-0] is [0]. *)
Definition abs_unsigned (x : Z) : Z := u16 (if x >? 0 then x else - x).

(** [long map(long x, long in_min, long in_max, long out_min, long out_max)]
    of the Arduino core; C division truncates, hence [Z.quot]. *)
Definition map (x in_min in_max out_min out_max : Z) : Z :=
  Z.quot ((x - in_min) * (out_max - out_min)) (in_max - in_min) + out_min.

End MachineInt.
Import MachineInt.

(** ** Constants of the sketch *)

Definition ENCODER_PULSES_PER_STEP : Z := 4.
Definition DISPLAY_REFRESH_INTERVAL : Z := 100.
Definition LONG_PUSH_INTERVAL : Z := 3000.
Definition SET_TIME_BLINK_MILLIS : Z := 150.
Definition ALARM_BLINK_MILLIS : Z := 700.
Definition BELL_REPEAT_INTERVAL : Z := 10000.
Definition TIMER_DISPLAY_TIMEOUT : Z := 60000.
Definition MINUTE_MILIS : Z := 60000 - 6.
Definition CLOCK_MILIS_CORRECTION_PER_HOUR : Z := 75.
Definition LDR_MAX_LIGHT : Z := 500.

(** ** Data model *)

(** The anonymous [enum] of the sketch. *)
Inductive Mode : Type :=
  | CLOCK | SET_HOUR | SET_MINUTE | SET_TIMER | COUNTDOWN | ALARM.

Definition Mode_eqb (a b : Mode) : bool :=
  match a, b with
  | CLOCK, CLOCK | SET_HOUR, SET_HOUR | SET_MINUTE, SET_MINUTE
  | SET_TIMER, SET_TIMER | COUNTDOWN, COUNTDOWN | ALARM, ALARM => true
  | _, _ => false
  end.

(** The globals of the sketch and the [static] locals of [loop()].
    [brightness] is the last call of [display.setBrightness]: the level and
    the on/off flag, [None] before the first call. *)
Record State : Type := mkState {
  clockHour : Z;
  clockMinute : Z;
  rtcPresent : bool;
  minuteMillis : Z;
  timerSeconds : Z;
  previousMillis : Z;
  displayRefreshMillis : Z;
  displayTimeoutMillis : Z;
  alarmStartMillis : Z;
  timerStartSeconds : Z;
  blink : bool;
  state : Mode;
  buttonPushedMillis : Z;
  lastLDRReading : Z;
  brightness : option (Z * bool)
}.

(** What one call of [loop()] reads from the hardware. *)
Record Input : Type := mkInput {
  currentMillis : Z;   (* [millis()] at the top of [loop()] *)
  laterMillis : Z;     (* [millis()] as read again in the button block *)
  dir : Z;             (* [encoder.read()], stored in an [int] *)
  fell : bool;         (* [button.fell()] *)
  rose : bool;         (* [button.rose()] *)
  ldr : Z              (* [analogRead(LDR_PIN)], stored in an [unsigned] *)
}.

(** The reading of the RTC, [DateTime now = rtc.now()]. *)
Record DateTime : Type := mkDateTime {
  dt_year : Z; dt_month : Z; dt_day : Z;
  dt_hour : Z; dt_minute : Z; dt_second : Z
}.

(** Globals and statics are zero-initialised, [rtcPresent], [state] and
    [lastLDRReading] have initialisers. *)
Definition initial : State :=
  {| clockHour := 0; clockMinute := 0; rtcPresent := true; minuteMillis := 0;
     timerSeconds := 0; previousMillis := 0; displayRefreshMillis := 0;
     displayTimeoutMillis := 0; alarmStartMillis := 0; timerStartSeconds := 0;
     blink := false; state := CLOCK; buttonPushedMillis := 0;
     lastLDRReading := 1300; brightness := None |}.

(** Assignments to one variable. *)
Definition set_clockHour (v : Z) (s : State) : State :=
  mkState v (clockMinute s) (rtcPresent s) (minuteMillis s) (timerSeconds s)
    (previousMillis s) (displayRefreshMillis s) (displayTimeoutMillis s)
    (alarmStartMillis s) (timerStartSeconds s) (blink s) (state s)
    (buttonPushedMillis s) (lastLDRReading s) (brightness s).
Definition set_clockMinute (v : Z) (s : State) : State :=
  mkState (clockHour s) v (rtcPresent s) (minuteMillis s) (timerSeconds s)
    (previousMillis s) (displayRefreshMillis s) (displayTimeoutMillis s)
    (alarmStartMillis s) (timerStartSeconds s) (blink s) (state s)
    (buttonPushedMillis s) (lastLDRReading s) (brightness s).
Definition set_rtcPresent (v : bool) (s : State) : State :=
  mkState (clockHour s) (clockMinute s) v (minuteMillis s) (timerSeconds s)
    (previousMillis s) (displayRefreshMillis s) (displayTimeoutMillis s)
    (alarmStartMillis s) (timerStartSeconds s) (blink s) (state s)
    (buttonPushedMillis s) (lastLDRReading s) (brightness s).
Definition set_minuteMillis (v : Z) (s : State) : State :=
  mkState (clockHour s) (clockMinute s) (rtcPresent s) v (timerSeconds s)
    (previousMillis s) (displayRefreshMillis s) (displayTimeoutMillis s)
    (alarmStartMillis s) (timerStartSeconds s) (blink s) (state s)
    (buttonPushedMillis s) (lastLDRReading s) (brightness s).
Definition set_timerSeconds (v : Z) (s : State) : State :=
  mkState (clockHour s) (clockMinute s) (rtcPresent s) (minuteMillis s) v
    (previousMillis s) (displayRefreshMillis s) (displayTimeoutMillis s)
    (alarmStartMillis s) (timerStartSeconds s) (blink s) (state s)
    (buttonPushedMillis s) (lastLDRReading s) (brightness s).
Definition set_previousMillis (v : Z) (s : State) : State :=
  mkState (clockHour s) (clockMinute s) (rtcPresent s) (minuteMillis s)
    (timerSeconds s) v (displayRefreshMillis s) (displayTimeoutMillis s)
    (alarmStartMillis s) (timerStartSeconds s) (blink s) (state s)
    (buttonPushedMillis s) (lastLDRReading s) (brightness s).
Definition set_displayRefreshMillis (v : Z) (s : State) : State :=
  mkState (clockHour s) (clockMinute s) (rtcPresent s) (minuteMillis s)
    (timerSeconds s) (previousMillis s) v (displayTimeoutMillis s)
    (alarmStartMillis s) (timerStartSeconds s) (blink s) (state s)
    (buttonPushedMillis s) (lastLDRReading s) (brightness s).
Definition set_displayTimeoutMillis (v : Z) (s : State) : State :=
  mkState (clockHour s) (clockMinute s) (rtcPresent s) (minuteMillis s)
    (timerSeconds s) (previousMillis s) (displayRefreshMillis s) v
    (alarmStartMillis s) (timerStartSeconds s) (blink s) (state s)
    (buttonPushedMillis s) (lastLDRReading s) (brightness s).
Definition set_alarmStartMillis (v : Z) (s : State) : State :=
  mkState (clockHour s) (clockMinute s) (rtcPresent s) (minuteMillis s)
    (timerSeconds s) (previousMillis s) (displayRefreshMillis s)
    (displayTimeoutMillis s) v (timerStartSeconds s) (blink s) (state s)
    (buttonPushedMillis s) (lastLDRReading s) (brightness s).
Definition set_timerStartSeconds (v : Z) (s : State) : State :=
  mkState (clockHour s) (clockMinute s) (rtcPresent s) (minuteMillis s)
    (timerSeconds s) (previousMillis s) (displayRefreshMillis s)
    (displayTimeoutMillis s) (alarmStartMillis s) v (blink s) (state s)
    (buttonPushedMillis s) (lastLDRReading s) (brightness s).
Definition set_blink (v : bool) (s : State) : State :=
  mkState (clockHour s) (clockMinute s) (rtcPresent s) (minuteMillis s)
    (timerSeconds s) (previousMillis s) (displayRefreshMillis s)
    (displayTimeoutMillis s) (alarmStartMillis s) (timerStartSeconds s) v
    (state s) (buttonPushedMillis s) (lastLDRReading s) (brightness s).
Definition set_state (v : Mode) (s : State) : State :=
  mkState (clockHour s) (clockMinute s) (rtcPresent s) (minuteMillis s)
    (timerSeconds s) (previousMillis s) (displayRefreshMillis s)
    (displayTimeoutMillis s) (alarmStartMillis s) (timerStartSeconds s)
    (blink s) v (buttonPushedMillis s) (lastLDRReading s) (brightness s).
Definition set_buttonPushedMillis (v : Z) (s : State) : State :=
  mkState (clockHour s) (clockMinute s) (rtcPresent s) (minuteMillis s)
    (timerSeconds s) (previousMillis s) (displayRefreshMillis s)
    (displayTimeoutMillis s) (alarmStartMillis s) (timerStartSeconds s)
    (blink s) (state s) v (lastLDRReading s) (brightness s).
Definition set_lastLDRReading (v : Z) (s : State) : State :=
  mkState (clockHour s) (clockMinute s) (rtcPresent s) (minuteMillis s)
    (timerSeconds s) (previousMillis s) (displayRefreshMillis s)
    (displayTimeoutMillis s) (alarmStartMillis s) (timerStartSeconds s)
    (blink s) (state s) (buttonPushedMillis s) v (brightness s).
Definition set_brightness (v : option (Z * bool)) (s : State) : State :=
  mkState (clockHour s) (clockMinute s) (rtcPresent s) (minuteMillis s)
    (timerSeconds s) (previousMillis s) (displayRefreshMillis s)
    (displayTimeoutMillis s) (alarmStartMillis s) (timerStartSeconds s)
    (blink s) (state s) (buttonPushedMillis s) (lastLDRReading s) v.

(** Statements in sequence: [s |> f |> g] runs [f], then [g]. *)
Notation "s |> f" := (f s) (at level 45, left associativity, only parsing).

(** ** The blocks of [loop()] *)

(** *** Clock: the set-time blink, or the minute rollover *)

Definition next_hour (h : Z) : Z := if h <? 23 then u8 (h + 1) else 0.
Definition prev_hour (h : Z) : Z := if h >? 0 then u8 (h - 1) else 23.
Definition next_minute (m : Z) : Z := if m <? 59 then u8 (m + 1) else 0.
Definition prev_minute (m : Z) : Z := if m >? 0 then u8 (m - 1) else 59.

Definition minute_rollover (s : State) : State :=
  let s := set_minuteMillis (u32 (minuteMillis s + MINUTE_MILIS)) s in
  if clockMinute s <? 59 then
    set_clockMinute (u8 (clockMinute s + 1)) s
  else
    s |> set_clockMinute 0
      |> set_clockHour (next_hour (clockHour s))
      |> set_minuteMillis
           (u32 (minuteMillis s - CLOCK_MILIS_CORRECTION_PER_HOUR)).

Definition clock_block (i : Input) (s : State) : State :=
  match state s with
  | SET_HOUR | SET_MINUTE =>
      if u32 (currentMillis i - previousMillis s) >=? SET_TIME_BLINK_MILLIS
      then s |> set_previousMillis (currentMillis i)
             |> set_blink (negb (blink s))
      else s
  | _ =>
      if u32 (currentMillis i - minuteMillis s) >? MINUTE_MILIS
      then minute_rollover s
      else s
  end.

(** *** Every second: the countdown and the colon *)

Definition second_tick (s : State) : State :=
  match state s with
  | COUNTDOWN =>
      if timerSeconds s >? 0 then
        let s := set_timerSeconds (u16 (timerSeconds s - 1)) s in
        if timerSeconds s =? 0
        then s |> set_state ALARM |> set_alarmStartMillis 0
        else s
      else s
  | CLOCK => set_blink (negb (blink s)) s
  | _ => s
  end.

Definition second_due (i : Input) (s : State) : bool :=
  u32 (currentMillis i - previousMillis s) >=? 1000.

Definition second_block (i : Input) (s : State) : State :=
  if second_due i s
  then s |> set_previousMillis (u32 (previousMillis s + 1000)) |> second_tick
  else s.

(** *** Encoder *)

(** [timerSeconds + dir] is an [unsigned] sum: [dir] is converted first. *)
Definition encoder_step (ts d : Z) : Z :=
  if u16 (ts + d) >? 6 * 60 then 60
  else if u16 (ts + d) >? 3 * 60 then 30
  else if u16 (ts + d) >? 60 then 15
  else if ts =? 0 then 10
  else 5.

(** [step = step - (timerSeconds % step)] unless counting down. *)
Definition increase_step (st : Mode) (ts step : Z) : Z :=
  if negb (Mode_eqb st COUNTDOWN)
  then u8 (u16 (step - u16 (ts mod step)))
  else step.

(** [int m = timerSeconds % step; if (m != 0) step = m;] unless counting
    down. *)
Definition decrease_step (st : Mode) (ts step : Z) : Z :=
  if negb (Mode_eqb st COUNTDOWN) then
    let m := s16 (u16 (ts mod step)) in
    if negb (m =? 0) then u8 m else step
  else step.

Definition encoder_timer (d : Z) (s : State) : State :=
  let s := set_displayTimeoutMillis 0 s in
  let step := encoder_step (timerSeconds s) d in
  let s :=
    if d >? 0 then
      let step := increase_step (state s) (timerSeconds s) step in
      if u16 (timerSeconds s + step) <? 6000
      then set_timerSeconds (u16 (timerSeconds s + step)) s
      else s
    else
      let step := decrease_step (state s) (timerSeconds s) step in
      if timerSeconds s >=? step
      then set_timerSeconds (u16 (timerSeconds s - step)) s
      else s in
  if negb (Mode_eqb (state s) COUNTDOWN) && (d >? 0)
  then set_state SET_TIMER s
  else s.

(** A rotation is seen once the count reaches one detent. *)
Definition encoder_event (i : Input) : bool :=
  abs_int (dir i) >=? ENCODER_PULSES_PER_STEP.

Definition encoder_block (i : Input) (s : State) : State :=
  if encoder_event i then
    match state s with
    | SET_HOUR =>
        set_clockHour
          (if dir i >? 0 then next_hour (clockHour s)
           else prev_hour (clockHour s)) s
    | SET_MINUTE =>
        set_clockMinute
          (if dir i >? 0 then next_minute (clockMinute s)
           else prev_minute (clockMinute s)) s
    | _ => encoder_timer (dir i) s
    end
  else s.

(** *** Button *)

Definition button_fell (i : Input) (s : State) : State :=
  if fell i then set_buttonPushedMillis (currentMillis i) s else s.

Definition long_push_due (i : Input) (s : State) : bool :=
  negb (buttonPushedMillis s =? 0)
  && (u32 (currentMillis i - buttonPushedMillis s) >? LONG_PUSH_INTERVAL).

Definition button_long (i : Input) (s : State) : State :=
  if long_push_due i s then
    let s := s |> set_buttonPushedMillis 0 |> set_displayTimeoutMillis 0 in
    match state s with
    | SET_TIMER => s |> set_timerSeconds 0 |> set_timerStartSeconds 0
    | CLOCK => set_state SET_HOUR s
    | _ => s
    end
  else s.

(** The release of a press that is still tracked: a short press. *)
Definition short_release (i : Input) (s : State) : bool :=
  rose i && negb (buttonPushedMillis s =? 0).

Definition start_countdown (i : Input) (s : State) : State :=
  let s := s |> set_state COUNTDOWN |> set_previousMillis (laterMillis i) in
  if timerStartSeconds s <? timerSeconds s
  then set_timerStartSeconds (timerSeconds s) s
  else s.

Definition button_rose (i : Input) (s : State) : State :=
  if short_release i s then
    let s := s |> set_buttonPushedMillis 0 |> set_displayTimeoutMillis 0 in
    match state s with
    | SET_HOUR => set_state SET_MINUTE s
    | SET_MINUTE => s |> set_state CLOCK |> set_minuteMillis (laterMillis i)
    | CLOCK => set_state SET_TIMER s
    | COUNTDOWN => set_state SET_TIMER s
    | ALARM =>
        s |> set_state SET_TIMER |> set_timerSeconds (timerStartSeconds s)
    | SET_TIMER =>
        if timerSeconds s >? 0 then start_countdown i s
        else s |> set_state CLOCK |> set_timerStartSeconds 0
    end
  else s.

Definition button_block (i : Input) (s : State) : State :=
  s |> button_fell i |> button_long i |> button_rose i.

(** *** Timeout of the timer display *)

Definition timeout_block (i : Input) (s : State) : State :=
  match state s with
  | SET_TIMER =>
      let s := if displayTimeoutMillis s =? 0
               then set_displayTimeoutMillis (currentMillis i) s else s in
      if u32 (currentMillis i - displayTimeoutMillis s)
           >? TIMER_DISPLAY_TIMEOUT
      then s |> set_displayTimeoutMillis 0 |> set_state CLOCK
             |> set_timerSeconds 0 |> set_timerStartSeconds 0
      else s
  | _ => s
  end.

(** *** Alarm: the blink and the restart of the bell *)

Definition alarm_block (i : Input) (s : State) : State :=
  match state s with
  | ALARM =>
      let s :=
        if u32 (currentMillis i - previousMillis s) >=? ALARM_BLINK_MILLIS
        then s |> set_previousMillis (currentMillis i)
               |> set_blink (negb (blink s))
        else s in
      if (u32 (currentMillis i - alarmStartMillis s) >? BELL_REPEAT_INTERVAL)
         || (alarmStartMillis s =? 0)
      then set_alarmStartMillis (currentMillis i) s
      else s
  | _ => s
  end.

(** *** Display refresh: the brightness *)

(** [abs(a - lastLDRReading) > 10] with [unsigned a] and
    [int lastLDRReading]: the difference is an [unsigned]. *)
Definition ldr_moved (a last : Z) : bool :=
  abs_unsigned (u16 (a - last)) >? 10.

Definition ldr_brightness (a : Z) : Z :=
  if a >? LDR_MAX_LIGHT then 7 else u8 (map a 0 LDR_MAX_LIGHT 1 1).

Definition refresh_due (i : Input) (s : State) : bool :=
  u32 (currentMillis i - displayRefreshMillis s) >? DISPLAY_REFRESH_INTERVAL.

Definition apply_light (a : Z) (s : State) : State :=
  if ldr_moved a (lastLDRReading s) then
    s |> set_lastLDRReading (s16 a)
      |> set_brightness (Some (ldr_brightness a, true))
  else s.

Definition display_block (i : Input) (s : State) : State :=
  if refresh_due i s then
    let s := set_displayRefreshMillis (currentMillis i) s in
    match state s with
    | ALARM =>
        s |> set_brightness (Some (7, blink s)) |> set_lastLDRReading 1300
    | _ => apply_light (u16 (ldr i)) s
    end
  else s.

(** ** [loop()] and [setup()] *)

Definition loop (i : Input) (s : State) : State :=
  s |> clock_block i |> second_block i |> encoder_block i |> button_block i
    |> timeout_block i |> alarm_block i |> display_block i.

(** Calls of [loop()] one after the other, the first input first. *)
Fixpoint run (ins : list Input) (s : State) : State :=
  match ins with
  | [] => s
  | i :: rest => run rest (loop i s)
  end.

Section TimeSource.

(** [DateTime::isValid] belongs to RTClib, not to the sketch: a
    parameter. *)
Variable isValid : DateTime -> bool.

(** [found] is the result of [rtc.begin()]; without the chip the sketch
    spins in [while (1) delay(10)] and never reaches [loop()]: [None].
    [now] is [rtc.now()], read after the chip was seeded when it was not
    running, and [ms] is [millis()]. *)
Definition loadRTCTime (found : bool) (now : DateTime) (ms : Z)
    (s : State) : option State :=
  if negb found then None
  else if negb (rtcPresent s) then Some s
  else if negb (isValid now) then Some (set_rtcPresent false s)
  else Some (s |> set_clockHour (u8 (dt_hour now))
               |> set_clockMinute (u8 (dt_minute now))
               |> set_minuteMillis (u32 (ms - 1000 * dt_second now))).

Definition setup (found : bool) (now : DateTime) (ms : Z) : option State :=
  loadRTCTime found now ms initial.

(** The states the sketch can be in between two calls of [loop()]. *)
Inductive reachable : State -> Prop :=
  | reachable_setup : forall found now ms s,
      setup found now ms = Some s -> reachable s
  | reachable_loop : forall i s,
      reachable s -> reachable (loop i s).

End TimeSource.

(** ** Predicates of the statements *)

Definition timer_in_range (s : State) : Prop :=
  0 <= timerSeconds s <= 5999.

Definition clock_valid (s : State) : Prop :=
  0 <= clockHour s <= 23 /\ 0 <= clockMinute s <= 59.

(** No rotation and no button edge in this call. *)
Definition idle (i : Input) : Prop :=
  encoder_event i = false /\ fell i = false /\ rose i = false.


(** Both timer variables under 100 minutes: what the blocks maintain. *)
Definition timer_inv (s : State) : Prop :=
  0 <= timerSeconds s <= 5999 /\ 0 <= timerStartSeconds s <= 5999.

(** The amount an increase adds to [timerSeconds] when it is accepted. *)
Definition increment (s : State) (d : Z) : Z :=
  increase_step (state s) (timerSeconds s)
    (encoder_step (timerSeconds s) d).

(** ** Inputs and states of the examples *)

(** A reading of the RTC and the state after [setup()] with it. *)
Definition noon : DateTime := mkDateTime 2000 1 1 12 0 30.
Definition rtc_ok (d : DateTime) : bool :=
  (0 <=? dt_hour d) && (dt_hour d <? 24)
  && (0 <=? dt_minute d) && (dt_minute d <? 60).
Definition after_setup : State :=
  initial |> set_clockHour 12 |> set_minuteMillis 4294937296.

(** One call of [loop()] at time [t]: a click of the encoder up or down,
    the button going down or up, or nothing. *)
Definition click_up (t : Z) : Input := mkInput t t 4 false false 300.
Definition click_down (t : Z) : Input := mkInput t t (-4) false false 300.
Definition press (t : Z) : Input := mkInput t t 0 true false 300.
Definition release (t : Z) : Input := mkInput t t 0 false true 300.
Definition wait (t : Z) : Input := mkInput t t 0 false false 300.

(** The state after [setup()] put into mode [m] with the two timer
    variables given, and the same with a press of the button under way
    since time [t]. *)
Definition in_mode (m : Mode) (ts tss : Z) : State :=
  after_setup |> set_state m |> set_timerSeconds ts
              |> set_timerStartSeconds tss.
Definition held (t : Z) (s : State) : State := set_buttonPushedMillis t s.

(** Milliseconds from the reference [displayTimeoutMillis] of [s] to the
    call with input [i], as the timeout block computes them. *)
Definition since_activity (i : Input) (s : State) : Z :=
  u32 (currentMillis i - displayTimeoutMillis s).

(** A call of [loop()] at time [t] with the light reading [a]. *)
Definition light (t a : Z) : Input := mkInput t t 0 false false a.

(** ** The step table as the specification words it *)

(** The table read on the current value of the timer alone. *)
Definition claimed_step (ts : Z) : Z :=
  if ts >? 360 then 60
  else if ts >? 180 then 30
  else if ts >? 60 then 15
  else if ts =? 0 then 10
  else 5.

(** The table read on the value [v] the rotation points at, the last two
    rows still told apart by the current value [ts]. *)
Definition table_step (v ts : Z) : Z :=
  if v >? 360 then 60
  else if v >? 180 then 30
  else if v >? 60 then 15
  else if ts =? 0 then 10
  else 5.

(** An input that neither adds time nor releases the button. *)
Definition quiet (i : Input) : Prop :=
  (encoder_event i = true -> dir i <= 0) /\ rose i = false.

(** ** The display buffer: [showClock], [showTimer], [refreshDisplay] *)

(** [byte digitBuffer[4]] and [byte displayData[4]]. *)
Record Quad : Type := mkQuad { q0 : Z; q1 : Z; q2 : Z; q3 : Z }.

Section Display.

(** [TM1637Display::encodeDigit] belongs to the display library: a
    parameter. *)
Variable encodeDigit : Z -> Z.

(** All four bytes of [displayData] are written on every call, so the
    result is the whole buffer. *)
Definition refreshDisplay (digitBuffer : Quad)
    (showColon showLeft showRight : bool) : Quad :=
  let d0 := if showLeft
            then (if q0 digitBuffer =? 0 then 0
                  else u8 (encodeDigit (q0 digitBuffer)))
            else 0 in
  let d1 := if showLeft then u8 (encodeDigit (q1 digitBuffer)) else 0 in
  let d2 := if showRight then u8 (encodeDigit (q2 digitBuffer)) else 0 in
  let d3 := if showRight then u8 (encodeDigit (q3 digitBuffer)) else 0 in
  let d1 := if showColon then u8 (Z.lor d1 128) else d1 in
  mkQuad d0 d1 d2 d3.

Definition clock_digits (s : State) : Quad :=
  mkQuad (u8 (clockHour s / 10)) (u8 (clockHour s mod 10))
         (u8 (clockMinute s / 10)) (u8 (clockMinute s mod 10)).

Definition showClock (showColon showHour showMinute : bool) (s : State)
    : Quad :=
  refreshDisplay (clock_digits s) showColon showHour showMinute.

Definition timer_digits (s : State) : Quad :=
  let minutes := u8 (timerSeconds s / 60) in
  let secs := u8 (timerSeconds s mod 60) in
  mkQuad (u8 (minutes / 10)) (u8 (minutes mod 10))
         (u8 (secs / 10)) (u8 (secs mod 10)).

Definition showTimer (s : State) : Quad :=
  refreshDisplay (timer_digits s) true true true.

End Display.

(** The segment table of the TM1637 library, for the examples. *)
Definition seven_segment (d : Z) : Z :=
  nth (Z.to_nat (Z.land d 15))
    [63; 6; 91; 79; 102; 109; 125; 7; 127; 111; 119; 124; 57; 94; 121; 113]
    0.

(** ** The bell: [bellSound] *)

Module Bell.

Definition REPEAT_COUNT : Z := 3.
Definition BELL_FREQUENCY : Z := 2093.
Definition LENGTH : Z := 1200.
Definition VOLUME_STEPS : Z := 9.
Definition STEP_LENGTH : Z := LENGTH / VOLUME_STEPS.

(** The [static] locals of [bellSound]. *)
Record Bell : Type := mkBell { volume : Z; count : Z; previousMillis : Z }.

Definition initial : Bell := mkBell VOLUME_STEPS 0 0.

(** One call of [toneAC(frequency, volume, length, background)]. *)
Record Tone : Type := mkTone {
  frequency : Z; loudness : Z; duration : Z; background : bool
}.

(** [ms] is the [millis()] read inside [bellSound]. *)
Definition bellSound (restart : bool) (ms : Z) (b : Bell)
    : Bell * option Tone :=
  let b := if restart then mkBell VOLUME_STEPS 0 (previousMillis b) else b in
  if count b =? REPEAT_COUNT then (b, None)
  else if u32 (ms - previousMillis b) >? STEP_LENGTH then
    let tone := mkTone BELL_FREQUENCY (volume b) (STEP_LENGTH * 2) true in
    let v := u8 (volume b - 1) in
    if v =? 0
    then (mkBell VOLUME_STEPS (u8 (count b + 1)) ms, Some tone)
    else (mkBell v (count b) ms, Some tone)
  else (b, None).

(** Calls one after the other; each is given its [restart] flag and its
    [millis()].  The tones come out in the order they were played. *)
Fixpoint play (calls : list (bool * Z)) (b : Bell) : Bell * list Tone :=
  match calls with
  | [] => (b, [])
  | (restart, ms) :: rest =>
      let (b1, t) := bellSound restart ms b in
      let (b2, ts) := play rest b1 in
      (b2, match t with Some x => x :: ts | None => ts end)
  end.

(** Tones still to come before the bell falls silent. *)
Definition tones_left (b : Bell) : Z :=
  VOLUME_STEPS * (REPEAT_COUNT - 1 - count b) + volume b.

Definition bell_ok (b : Bell) : Prop :=
  1 <= volume b <= VOLUME_STEPS /\ 0 <= count b <= REPEAT_COUNT
  /\ (count b = REPEAT_COUNT -> volume b = VOLUME_STEPS).

End Bell.

(** [resetBell] as the alarm block passes it to [bellSound]; the block is
    entered in ALARM only. *)
Definition resetBell (i : Input) (s : State) : bool :=
  (u32 (currentMillis i - alarmStartMillis s) >? BELL_REPEAT_INTERVAL)
  || (alarmStartMillis s =? 0).

(** ** The RTC: [saveTimeToRTC] *)

(** What [saveTimeToRTC] hands to [rtc.adjust], [None] when it returns
    without writing. *)
Definition saveTimeToRTC (s : State) : option DateTime :=
  if negb (rtcPresent s) then None
  else Some (mkDateTime 2000 1 1 (clockHour s) (clockMinute s) 0).

(** ** Further predicates *)

(** The minute of the day the clock shows. *)
Definition minute_of_day (s : State) : Z := 60 * clockHour s + clockMinute s.

(** [n] second ticks, as [second_block] makes them when each is due. *)
Fixpoint ticks (n : nat) (s : State) : State :=
  match n with
  | O => s
  | S k => ticks k (second_tick s)
  end.

(** [n] minute rollovers. *)
Fixpoint rollovers (n : nat) (s : State) : State :=
  match n with
  | O => s
  | S k => rollovers k (minute_rollover s)
  end.

(** How the mode and the two timer variables go together. *)
Definition mode_inv (s : State) : Prop :=
  match state s with
  | CLOCK | SET_HOUR | SET_MINUTE =>
      timerSeconds s = 0 /\ timerStartSeconds s = 0
  | ALARM => timerSeconds s = 0 /\ 0 < timerStartSeconds s
  | COUNTDOWN => 0 < timerStartSeconds s
  | SET_TIMER => True
  end.

(** The levels the sketch asks of the display. *)
Definition brightness_ok (s : State) : Prop :=
  match brightness s with
  | None => True
  | Some (level, on) => level = 7 \/ (level = 1 /\ on = true)
  end.
(** * Properties *)

(** ** Proof steps shared by the blocks *)

Ltac fields :=
  cbn [clockHour clockMinute rtcPresent minuteMillis timerSeconds
       previousMillis displayRefreshMillis displayTimeoutMillis
       alarmStartMillis timerStartSeconds blink state buttonPushedMillis
       lastLDRReading brightness
       set_clockHour set_clockMinute set_rtcPresent set_minuteMillis
       set_timerSeconds set_previousMillis set_displayRefreshMillis
       set_displayTimeoutMillis set_alarmStartMillis set_timerStartSeconds
       set_blink set_state set_buttonPushedMillis set_lastLDRReading
       set_brightness] in *.

(** One case split: on the mode, or on a test that has no test inside. *)
Ltac branch :=
  match goal with
  | |- context [match state ?s with _ => _ end] => destruct (state s) eqn:?
  | |- context [if ?b then _ else _] =>
      lazymatch b with
      | context [if _ then _ else _] => fail
      | context [match _ with _ => _ end] => fail
      | _ => destruct b eqn:?
      end
  end.

Ltac branches := repeat (fields; branch); fields.

Ltac to_Z :=
  repeat match goal with
  | H : (_ >? _) = true |- _ => apply Z.gtb_lt in H
  | H : (_ >? _) = false |- _ => rewrite Z.gtb_ltb in H; apply Z.ltb_ge in H
  | H : (_ <? _) = true |- _ => apply Z.ltb_lt in H
  | H : (_ <? _) = false |- _ => apply Z.ltb_ge in H
  | H : (_ >=? _) = true |- _ => rewrite Z.geb_leb in H; apply Z.leb_le in H
  | H : (_ >=? _) = false |- _ => rewrite Z.geb_leb in H; apply Z.leb_gt in H
  | H : (_ =? _) = true |- _ => apply Z.eqb_eq in H
  | H : (_ =? _) = false |- _ => apply Z.eqb_neq in H
  end.

Ltac wrap_lia :=
  to_Z; unfold u8, u16, u32 in *; Z.div_mod_to_equations; lia.

(** ** What each block leaves alone *)

Lemma clock_block_frame i s :
  state (clock_block i s) = state s
  /\ timerSeconds (clock_block i s) = timerSeconds s
  /\ timerStartSeconds (clock_block i s) = timerStartSeconds s
  /\ buttonPushedMillis (clock_block i s) = buttonPushedMillis s
  /\ displayTimeoutMillis (clock_block i s) = displayTimeoutMillis s.
Proof.
  unfold clock_block, minute_rollover; branches; repeat split; congruence.
Qed.

Lemma second_block_frame i s :
  clockHour (second_block i s) = clockHour s
  /\ clockMinute (second_block i s) = clockMinute s
  /\ timerStartSeconds (second_block i s) = timerStartSeconds s
  /\ buttonPushedMillis (second_block i s) = buttonPushedMillis s
  /\ displayTimeoutMillis (second_block i s) = displayTimeoutMillis s.
Proof.
  unfold second_block, second_tick; branches; repeat split; reflexivity.
Qed.

Lemma alarm_block_frame i s :
  state (alarm_block i s) = state s
  /\ timerSeconds (alarm_block i s) = timerSeconds s
  /\ timerStartSeconds (alarm_block i s) = timerStartSeconds s
  /\ clockHour (alarm_block i s) = clockHour s
  /\ clockMinute (alarm_block i s) = clockMinute s
  /\ buttonPushedMillis (alarm_block i s) = buttonPushedMillis s
  /\ displayTimeoutMillis (alarm_block i s) = displayTimeoutMillis s.
Proof.
  unfold alarm_block; branches; repeat split; congruence.
Qed.

Lemma display_block_frame i s :
  state (display_block i s) = state s
  /\ timerSeconds (display_block i s) = timerSeconds s
  /\ timerStartSeconds (display_block i s) = timerStartSeconds s
  /\ clockHour (display_block i s) = clockHour s
  /\ clockMinute (display_block i s) = clockMinute s
  /\ buttonPushedMillis (display_block i s) = buttonPushedMillis s
  /\ displayTimeoutMillis (display_block i s) = displayTimeoutMillis s.
Proof.
  unfold display_block, apply_light; branches; repeat split; congruence.
Qed.

Lemma button_block_clock i s :
  clockHour (button_block i s) = clockHour s
  /\ clockMinute (button_block i s) = clockMinute s.
Proof.
  unfold button_block, button_rose, button_long, button_fell, start_countdown.
  branches; split; reflexivity.
Qed.

Lemma timeout_block_clock i s :
  clockHour (timeout_block i s) = clockHour s
  /\ clockMinute (timeout_block i s) = clockMinute s.
Proof. unfold timeout_block; branches; split; reflexivity. Qed.

(** ** The step of the encoder *)

Lemma encoder_step_values ts d :
  encoder_step ts d = 60 \/ encoder_step ts d = 30
  \/ encoder_step ts d = 15 \/ encoder_step ts d = 10
  \/ encoder_step ts d = 5.
Proof. unfold encoder_step; branches; auto. Qed.

Lemma increase_step_bounds st ts step :
  0 <= ts -> 0 < step <= 60 ->
  0 < increase_step st ts step <= step.
Proof.
  intros H0 Hs; unfold increase_step; branch; [|lia].
  pose proof (Z.mod_pos_bound ts step (proj1 Hs)) as Hm.
  remember (ts mod step) as m eqn:Em; clear Em.
  unfold u8, u16.
  rewrite (Z.mod_small m 65536) by lia.
  rewrite (Z.mod_small (step - m) 65536) by lia.
  rewrite (Z.mod_small (step - m) 256) by lia.
  lia.
Qed.

Lemma decrease_step_bounds st ts step :
  0 <= ts -> 0 < step <= 60 ->
  0 < decrease_step st ts step <= step.
Proof.
  intros H0 Hs; unfold decrease_step; branch; [|lia].
  pose proof (Z.mod_pos_bound ts step (proj1 Hs)) as Hm.
  remember (ts mod step) as m eqn:Em; clear Em.
  unfold s16, u8, u16; cbv zeta; rewrite !(Z.mod_small m 65536) by lia.
  destruct (m <? 32768) eqn:E; to_Z; [|lia].
  destruct (m =? 0) eqn:E0; to_Z; simpl; [lia|].
  rewrite Z.mod_small by lia; lia.
Qed.

(** ** The timer stays under 100 minutes *)

Lemma second_block_inv i s : timer_inv s -> timer_inv (second_block i s).
Proof.
  unfold timer_inv, second_block, second_tick; intros [H1 H2].
  branches; wrap_lia.
Qed.

Lemma encoder_timer_inv d s : timer_inv s -> timer_inv (encoder_timer d s).
Proof.
  unfold timer_inv, encoder_timer; intros [H1 H2].
  assert (Hs : 0 < encoder_step (timerSeconds s) d <= 60)
    by (destruct (encoder_step_values (timerSeconds s) d)
          as [E|[E|[E|[E|E]]]]; rewrite E; lia).
  pose proof (increase_step_bounds (state s) (timerSeconds s) _
                (proj1 H1) Hs).
  pose proof (decrease_step_bounds (state s) (timerSeconds s) _
                (proj1 H1) Hs).
  branches; wrap_lia.
Qed.

Lemma encoder_block_inv i s : timer_inv s -> timer_inv (encoder_block i s).
Proof.
  intros H; unfold encoder_block.
  destruct (encoder_event i); [|exact H].
  destruct (state s) eqn:E; try (apply encoder_timer_inv; exact H);
    exact H.
Qed.

Lemma button_block_inv i s : timer_inv s -> timer_inv (button_block i s).
Proof.
  unfold timer_inv, button_block, button_rose, button_long, button_fell,
    start_countdown; intros [H1 H2].
  branches; to_Z; lia.
Qed.

Lemma timeout_block_inv i s : timer_inv s -> timer_inv (timeout_block i s).
Proof.
  unfold timer_inv, timeout_block; intros [H1 H2]; branches; lia.
Qed.

Lemma loop_inv i s : timer_inv s -> timer_inv (loop i s).
Proof.
  intros H; unfold loop.
  assert (H0 : timer_inv (clock_block i s)).
  { destruct (clock_block_frame i s) as (_ & E1 & E2 & _).
    unfold timer_inv; rewrite E1, E2; exact H. }
  apply (second_block_inv i), (encoder_block_inv i), (button_block_inv i),
    (timeout_block_inv i) in H0.
  destruct (alarm_block_frame i (timeout_block i (button_block i
     (encoder_block i (second_block i (clock_block i s))))))
    as (_ & E1 & E2 & _).
  destruct (display_block_frame i (alarm_block i (timeout_block i
     (button_block i (encoder_block i (second_block i (clock_block i s)))))))
    as (_ & E3 & E4 & _).
  unfold timer_inv; rewrite E3, E4, E1, E2; exact H0.
Qed.

Lemma run_inv ins : forall s, timer_inv s -> timer_inv (run ins s).
Proof.
  induction ins as [|i rest IH]; intros s H; simpl; [exact H|].
  apply IH, loop_inv, H.
Qed.

Lemma setup_inv isValid found now ms s :
  setup isValid found now ms = Some s -> timer_inv s.
Proof.
  unfold setup, loadRTCTime; intros H.
  repeat (revert H; branch; intros H); try discriminate;
    injection H as <-; unfold timer_inv; fields; simpl; lia.
Qed.

Lemma reachable_inv isValid s : reachable isValid s -> timer_inv s.
Proof.
  induction 1 as [found now ms s H|i s _ IH].
  - exact (setup_inv _ _ _ _ _ H).
  - apply loop_inv, IH.
Qed.

(** ** C1: the range of [timerSeconds] *)

Lemma decrement_at_zero i s :
  dir i <= 0 -> timerSeconds s = 0 ->
  timerSeconds (encoder_block i s) = 0.
Proof.
  intros Hd H0; unfold encoder_block.
  destruct (encoder_event i); [|exact H0].
  assert (Ht : timerSeconds (encoder_timer (dir i) s) = 0).
  { unfold encoder_timer.
    assert (Hs : 0 < encoder_step (timerSeconds s) (dir i) <= 60)
      by (destruct (encoder_step_values (timerSeconds s) (dir i))
            as [E|[E|[E|[E|E]]]]; rewrite E; lia).
    pose proof (decrease_step_bounds (state s) (timerSeconds s) _
                  ltac:(lia) Hs).
    branches; to_Z; lia. }
  destruct (state s); fields; assumption.
Qed.

Lemma increment_over_cap i s :
  dir i > 0 -> 0 <= timerSeconds s <= 5999 ->
  timerSeconds s + increment s (dir i) > 5999 ->
  timerSeconds (encoder_block i s) = timerSeconds s.
Proof.
  intros Hd Hr Hc; unfold encoder_block.
  destruct (encoder_event i); [|reflexivity].
  assert (Ht : timerSeconds (encoder_timer (dir i) s) = timerSeconds s).
  { unfold increment in Hc; unfold encoder_timer.
    assert (Hs : 0 < encoder_step (timerSeconds s) (dir i) <= 60)
      by (destruct (encoder_step_values (timerSeconds s) (dir i))
            as [E|[E|[E|[E|E]]]]; rewrite E; lia).
    pose proof (increase_step_bounds (state s) (timerSeconds s) _
                  (proj1 Hr) Hs).
    branches; try reflexivity; wrap_lia. }
  destruct (state s); fields; try assumption; reflexivity.
Qed.

(** C1.  In every state the sketch can reach, and after any further calls
    of [loop()] whatever the encoder, the button and the clock deliver,
    [timerSeconds] is between 0 and 5999.  A rotation that is not an
    increase leaves a [timerSeconds] of 0 at 0, and an increase that would
    take [timerSeconds] over 5999 leaves it as it is. *)
Theorem timer_stays_in_range (isValid : DateTime -> bool) (s : State) :
  reachable isValid s ->
  (forall ins, timer_in_range (run ins s))
  /\ (forall i, encoder_event i = true -> dir i <= 0 ->
        timerSeconds s = 0 -> timerSeconds (encoder_block i s) = 0)
  /\ (forall i, encoder_event i = true -> dir i > 0 ->
        timerSeconds s + increment s (dir i) > 5999 ->
        timerSeconds (encoder_block i s) = timerSeconds s).
Proof.
  intros Hr; apply reachable_inv in Hr; repeat split.
  - apply (run_inv ins s Hr).
  - apply (run_inv ins s Hr).
  - intros i _ Hd H0; apply decrement_at_zero; assumption.
  - intros i _ Hd Hc; apply increment_over_cap; try assumption.
    exact (proj1 Hr).
Qed.

Lemma after_setup_reachable : reachable rtc_ok after_setup.
Proof. apply (reachable_setup rtc_ok true noon 0); reflexivity. Qed.

Lemma timer_stays_in_range_witness :
  timer_in_range
    (run [click_up 100; click_up 200; click_up 300; press 400; release 500;
          wait 1500; wait 2500] after_setup)
  /\ timerSeconds
       (run [click_up 100; click_up 200; click_up 300; press 400;
             release 500; wait 1500; wait 2500] after_setup) = 18.
Proof.
  split.
  - apply (proj1 (timer_stays_in_range rtc_ok after_setup
                    after_setup_reachable)).
  - vm_compute; reflexivity.
Defined.

(** ** How COUNTDOWN is entered *)

Lemma second_block_countdown i s :
  state (second_block i s) = COUNTDOWN -> state s = COUNTDOWN.
Proof.
  unfold second_block, second_tick; branches; congruence.
Qed.

Lemma encoder_block_countdown i s :
  state (encoder_block i s) = COUNTDOWN <-> state s = COUNTDOWN.
Proof.
  unfold encoder_block, encoder_timer; fields.
  destruct (state s) eqn:E; branches; rewrite ?E in *; simpl in *;
    split; congruence.
Qed.

Lemma button_block_countdown i s :
  state (button_block i s) = COUNTDOWN ->
  state s = COUNTDOWN \/ timerSeconds (button_block i s) > 0.
Proof.
  unfold button_block, button_rose, button_long, button_fell,
    start_countdown.
  branches; intros H; try congruence; to_Z; auto; right; lia.
Qed.

Lemma timeout_block_countdown i s :
  state (timeout_block i s) = COUNTDOWN ->
  state s = COUNTDOWN /\ timerSeconds (timeout_block i s) = timerSeconds s.
Proof.
  unfold timeout_block; branches; intros H; split; congruence.
Qed.

(** The blocks after the encoder: COUNTDOWN at the end of the call was
    either there already, or comes with a positive [timerSeconds]. *)
Lemma after_encoder_countdown i s :
  state (display_block i (alarm_block i (timeout_block i
          (button_block i s)))) = COUNTDOWN ->
  state s = COUNTDOWN
  \/ timerSeconds (display_block i (alarm_block i (timeout_block i
          (button_block i s)))) > 0.
Proof.
  destruct (display_block_frame i (alarm_block i (timeout_block i
              (button_block i s)))) as (E1 & E2 & _).
  destruct (alarm_block_frame i (timeout_block i (button_block i s)))
    as (E3 & E4 & _).
  rewrite E1, E2, E3, E4; intros H.
  apply timeout_block_countdown in H; destruct H as [H Et]; rewrite Et.
  apply button_block_countdown, H.
Qed.

(** ** C2: the last second of the countdown *)

Lemma last_second i s :
  state s = COUNTDOWN -> timerSeconds s = 1 -> second_due i s = true ->
  state (second_block i s) = ALARM /\ timerSeconds (second_block i s) = 0.
Proof.
  intros Hs Ht Hd; unfold second_block, second_tick; rewrite Hd.
  fields; rewrite Hs, Ht; simpl; fields; split; reflexivity.
Qed.

Lemma second_due_clock_block i s :
  state s = COUNTDOWN -> second_due i (clock_block i s) = second_due i s.
Proof.
  intros Hs; unfold second_due, clock_block, minute_rollover; rewrite Hs.
  branches; reflexivity.
Qed.

(** C2.  In COUNTDOWN with one second left, the call of [loop()] whose
    second tick is due takes [timerSeconds] to 0 and sets the mode to ALARM
    in the same block; and that call never ends in COUNTDOWN with
    [timerSeconds] at 0. *)
Theorem countdown_end_enters_alarm (i : Input) (s : State) :
  state s = COUNTDOWN -> timerSeconds s = 1 -> second_due i s = true ->
  (state (second_block i (clock_block i s)) = ALARM
   /\ timerSeconds (second_block i (clock_block i s)) = 0)
  /\ ~ (state (loop i s) = COUNTDOWN /\ timerSeconds (loop i s) = 0).
Proof.
  intros Hs Ht Hd.
  destruct (clock_block_frame i s) as (E1 & E2 & _).
  assert (Ha : state (second_block i (clock_block i s)) = ALARM
               /\ timerSeconds (second_block i (clock_block i s)) = 0).
  { apply last_second; try congruence.
    rewrite second_due_clock_block; assumption. }
  split; [exact Ha|].
  intros [Hc H0]; unfold loop in Hc, H0.
  apply after_encoder_countdown in Hc; destruct Hc as [Hc|Hc]; [|lia].
  apply encoder_block_countdown in Hc.
  destruct Ha as [Ha _]; congruence.
Qed.

(** ** C3: a short press in SET_TIMER *)

(** C3.  When a short press is released in SET_TIMER, the mode becomes
    COUNTDOWN exactly when [timerSeconds] is positive, and CLOCK when it is
    0.  A call of [loop()] that starts outside COUNTDOWN and ends in
    COUNTDOWN ends with a positive [timerSeconds]. *)
Theorem countdown_needs_time (i : Input) (s : State) :
  (state s = SET_TIMER -> short_release i s = true ->
     (state (button_rose i s) = COUNTDOWN <-> timerSeconds s > 0)
     /\ (timerSeconds s = 0 -> state (button_rose i s) = CLOCK))
  /\ (state s <> COUNTDOWN -> state (loop i s) = COUNTDOWN ->
        timerSeconds (loop i s) > 0).
Proof.
  split.
  - intros Hs Hr; unfold button_rose, start_countdown; rewrite Hr.
    fields; rewrite Hs.
    destruct (timerSeconds s >? 0) eqn:E; branches; to_Z;
      (split; [split; intros; (lia || congruence)|intros; (lia || congruence)]).
  - intros Hs Hc; unfold loop in *.
    apply after_encoder_countdown in Hc; destruct Hc as [Hc|Hc]; [|exact Hc].
    apply encoder_block_countdown, second_block_countdown in Hc.
    destruct (clock_block_frame i s) as (E1 & _); congruence.
Qed.

Lemma countdown_end_enters_alarm_witness :
  (state (second_block (wait 1000)
            (clock_block (wait 1000) (in_mode COUNTDOWN 1 30))) = ALARM
   /\ timerSeconds (second_block (wait 1000)
            (clock_block (wait 1000) (in_mode COUNTDOWN 1 30))) = 0)
  /\ ~ (state (loop (wait 1000) (in_mode COUNTDOWN 1 30)) = COUNTDOWN
        /\ timerSeconds (loop (wait 1000) (in_mode COUNTDOWN 1 30)) = 0).
Proof.
  apply (countdown_end_enters_alarm (wait 1000) (in_mode COUNTDOWN 1 30));
    reflexivity.
Defined.

Lemma countdown_needs_time_witness :
  (state (button_rose (release 500) (held 400 (in_mode SET_TIMER 30 0)))
     = COUNTDOWN <-> 30 > 0)
  /\ timerSeconds (loop (release 500) (held 400 (in_mode SET_TIMER 30 0)))
     > 0.
Proof.
  split.
  - apply (proj1 (countdown_needs_time (release 500)
                    (held 400 (in_mode SET_TIMER 30 0))));
      reflexivity.
  - apply (proj2 (countdown_needs_time (release 500)
                    (held 400 (in_mode SET_TIMER 30 0))));
      [discriminate|reflexivity].
Defined.

(** ** A call of [loop()] block by block *)

Lemma second_block_other_mode i s :
  state s <> COUNTDOWN ->
  state (second_block i s) = state s
  /\ timerSeconds (second_block i s) = timerSeconds s.
Proof.
  unfold second_block, second_tick; branches; intros H; split; congruence.
Qed.

Lemma encoder_block_none i s :
  encoder_event i = false -> encoder_block i s = s.
Proof. unfold encoder_block; intros ->; reflexivity. Qed.

Lemma encoder_block_frame i s :
  timerStartSeconds (encoder_block i s) = timerStartSeconds s
  /\ buttonPushedMillis (encoder_block i s) = buttonPushedMillis s.
Proof.
  unfold encoder_block, encoder_timer; branches; split; reflexivity.
Qed.

Lemma long_push_due_ext i s1 s2 :
  buttonPushedMillis s1 = buttonPushedMillis s2 ->
  long_push_due i s1 = long_push_due i s2.
Proof. unfold long_push_due; intros ->; reflexivity. Qed.

Lemma short_release_ext i s1 s2 :
  buttonPushedMillis s1 = buttonPushedMillis s2 ->
  short_release i s1 = short_release i s2.
Proof. unfold short_release; intros ->; reflexivity. Qed.

Lemma button_block_idle i s :
  fell i = false -> rose i = false -> buttonPushedMillis s = 0 ->
  button_block i s = s.
Proof.
  intros Hf Hr Hb.
  unfold button_block, button_fell, button_long, button_rose,
    long_push_due, short_release.
  rewrite Hf, Hr, Hb; reflexivity.
Qed.

Lemma button_block_short_release i s :
  fell i = false -> long_push_due i s = false ->
  short_release i s = true ->
  button_block i s = button_rose i s.
Proof.
  intros Hf Hl Hr; unfold button_block, button_fell, button_long.
  rewrite Hf, Hl; reflexivity.
Qed.

Lemma timeout_block_fresh i s :
  state s = SET_TIMER -> displayTimeoutMillis s = 0 ->
  state (timeout_block i s) = SET_TIMER
  /\ timerSeconds (timeout_block i s) = timerSeconds s
  /\ timerStartSeconds (timeout_block i s) = timerStartSeconds s
  /\ displayTimeoutMillis (timeout_block i s) = currentMillis i.
Proof.
  intros Hs Hd; unfold timeout_block; rewrite Hs, Hd; simpl; fields.
  rewrite Z.sub_diag; unfold u32; simpl; fields; auto.
Qed.

(** The last two blocks change neither the mode nor the timer. *)
Lemma alarm_display_frame i s :
  state (display_block i (alarm_block i s)) = state s
  /\ timerSeconds (display_block i (alarm_block i s)) = timerSeconds s
  /\ timerStartSeconds (display_block i (alarm_block i s))
     = timerStartSeconds s
  /\ buttonPushedMillis (display_block i (alarm_block i s))
     = buttonPushedMillis s
  /\ displayTimeoutMillis (display_block i (alarm_block i s))
     = displayTimeoutMillis s.
Proof.
  destruct (display_block_frame i (alarm_block i s))
    as (E1 & E2 & E3 & _ & _ & E4 & E5).
  destruct (alarm_block_frame i s) as (F1 & F2 & F3 & _ & _ & F4 & F5).
  repeat split; congruence.
Qed.

(** ** C5: dismissing the alarm *)

Lemma alarm_release i s :
  state s = ALARM -> short_release i s = true ->
  state (button_rose i s) = SET_TIMER
  /\ timerSeconds (button_rose i s) = timerStartSeconds s
  /\ timerStartSeconds (button_rose i s) = timerStartSeconds s
  /\ displayTimeoutMillis (button_rose i s) = 0.
Proof.
  intros Hs Hr; unfold button_rose; rewrite Hr; fields; rewrite Hs.
  fields; auto.
Qed.

Lemma arming_records_start i s :
  state s = SET_TIMER -> short_release i s = true ->
  timerSeconds s > 0 -> timerStartSeconds s <= timerSeconds s ->
  state (button_rose i s) = COUNTDOWN
  /\ timerSeconds (button_rose i s) = timerSeconds s
  /\ timerStartSeconds (button_rose i s) = timerSeconds s.
Proof.
  intros Hs Hr Hp Hle; unfold button_rose, start_countdown.
  rewrite Hr; fields; rewrite Hs.
  destruct (timerSeconds s >? 0) eqn:E; to_Z; [|lia].
  branches; to_Z; repeat split; try reflexivity; lia.
Qed.

Lemma alarm_release_loop i s :
  state s = ALARM -> encoder_event i = false -> fell i = false ->
  long_push_due i s = false -> short_release i s = true ->
  state (loop i s) = SET_TIMER
  /\ timerSeconds (loop i s) = timerStartSeconds s
  /\ timerStartSeconds (loop i s) = timerStartSeconds s.
Proof.
  intros Hs He Hf Hl Hr; unfold loop.
  destruct (clock_block_frame i s) as (C1 & C2 & C3 & C4 & C5).
  destruct (second_block_other_mode i (clock_block i s)) as (S1 & S2);
    [congruence|].
  destruct (second_block_frame i (clock_block i s))
    as (_ & _ & S3 & S4 & S5).
  rewrite (encoder_block_none i _ He).
  set (s2 := second_block i (clock_block i s)) in *.
  assert (Hb : buttonPushedMillis s2 = buttonPushedMillis s) by congruence.
  rewrite (button_block_short_release i s2 Hf);
    [|rewrite (long_push_due_ext i s2 s Hb); exact Hl
     |rewrite (short_release_ext i s2 s Hb); exact Hr].
  destruct (alarm_release i s2) as (B1 & B2 & B3 & B4);
    [congruence|rewrite (short_release_ext i s2 s Hb); exact Hr|].
  destruct (timeout_block_fresh i (button_rose i s2) B1 B4)
    as (T1 & T2 & T3 & _).
  destruct (alarm_display_frame i (timeout_block i (button_rose i s2)))
    as (A1 & A2 & A3 & _).
  repeat split; congruence.
Qed.

(** C5.  The release of a short press in ALARM sets the mode to SET_TIMER
    and [timerSeconds] to [timerStartSeconds], also at the end of a call of
    [loop()] in which nothing else happens.  The release of a short press in
    SET_TIMER with a positive [timerSeconds] that is at least
    [timerStartSeconds] enters COUNTDOWN and records [timerSeconds] in
    [timerStartSeconds]. *)
Theorem alarm_release_restores_start (i : Input) (s : State) :
  short_release i s = true ->
  (state s = ALARM ->
     state (button_rose i s) = SET_TIMER
     /\ timerSeconds (button_rose i s) = timerStartSeconds s)
  /\ (state s = ALARM -> encoder_event i = false -> fell i = false ->
      long_push_due i s = false ->
        state (loop i s) = SET_TIMER
        /\ timerSeconds (loop i s) = timerStartSeconds s)
  /\ (state s = SET_TIMER -> timerSeconds s > 0 ->
      timerStartSeconds s <= timerSeconds s ->
        state (button_rose i s) = COUNTDOWN
        /\ timerStartSeconds (button_rose i s) = timerSeconds s).
Proof.
  intros Hr; repeat split.
  - apply alarm_release; assumption.
  - apply alarm_release; assumption.
  - apply alarm_release_loop; assumption.
  - apply alarm_release_loop; assumption.
  - apply arming_records_start; assumption.
  - apply arming_records_start; assumption.
Qed.

Lemma alarm_release_restores_start_witness :
  (state (loop (release 500) (held 400 (in_mode ALARM 0 30))) = SET_TIMER
   /\ timerSeconds (loop (release 500) (held 400 (in_mode ALARM 0 30))) = 30)
  /\ (state (button_rose (release 500) (held 400 (in_mode SET_TIMER 45 30)))
        = COUNTDOWN
      /\ timerStartSeconds
           (button_rose (release 500) (held 400 (in_mode SET_TIMER 45 30)))
         = 45).
Proof.
  split.
  - apply (alarm_release_restores_start (release 500)
             (held 400 (in_mode ALARM 0 30))); reflexivity.
  - apply (alarm_release_restores_start (release 500)
             (held 400 (in_mode SET_TIMER 45 30)));
      [reflexivity|reflexivity|vm_compute; reflexivity
      |vm_compute; discriminate].
Defined.

(** ** C6: the clock is a time of day *)

Lemma minute_rollover_valid s : clock_valid s -> clock_valid (minute_rollover s).
Proof.
  unfold clock_valid, minute_rollover, next_hour; intros [H1 H2].
  branches; wrap_lia.
Qed.

Lemma clock_block_valid i s : clock_valid s -> clock_valid (clock_block i s).
Proof.
  intros H; unfold clock_block.
  destruct (state s); branches;
    try (apply minute_rollover_valid; exact H); exact H.
Qed.

Lemma encoder_block_valid i s :
  clock_valid s -> clock_valid (encoder_block i s).
Proof.
  unfold clock_valid, encoder_block, encoder_timer, next_hour, prev_hour,
    next_minute, prev_minute; intros [H1 H2].
  branches; wrap_lia.
Qed.

Lemma loop_valid i s : clock_valid s -> clock_valid (loop i s).
Proof.
  intros H; unfold loop.
  apply (clock_block_valid i) in H.
  assert (H2 : clock_valid (second_block i (clock_block i s))).
  { destruct (second_block_frame i (clock_block i s)) as (E1 & E2 & _).
    unfold clock_valid; rewrite E1, E2; exact H. }
  apply (encoder_block_valid i) in H2.
  set (s3 := encoder_block i (second_block i (clock_block i s))) in *.
  destruct (button_block_clock i s3) as (B1 & B2).
  destruct (timeout_block_clock i (button_block i s3)) as (T1 & T2).
  destruct (alarm_block_frame i (timeout_block i (button_block i s3)))
    as (_ & _ & _ & A1 & A2 & _).
  destruct (display_block_frame i
              (alarm_block i (timeout_block i (button_block i s3))))
    as (_ & _ & _ & D1 & D2 & _).
  unfold clock_valid; rewrite D1, D2, A1, A2, T1, T2, B1, B2; exact H2.
Qed.

Lemma reachable_run isValid ins :
  forall s, reachable isValid s -> reachable isValid (run ins s).
Proof.
  induction ins as [|i rest IH]; intros s H; simpl; [exact H|].
  apply IH, reachable_loop, H.
Qed.

Lemma rtc_ok_time d :
  rtc_ok d = true -> 0 <= dt_hour d <= 23 /\ 0 <= dt_minute d <= 59.
Proof.
  unfold rtc_ok; intros H.
  repeat (apply andb_prop in H; destruct H as [H ?]).
  apply Z.leb_le in H; to_Z; lia.
Qed.

Section ClockValidity.

Variable isValid : DateTime -> bool.

(** What RTClib's [DateTime::isValid] promises of a reading. *)
Hypothesis isValid_time :
  forall d, isValid d = true ->
    0 <= dt_hour d <= 23 /\ 0 <= dt_minute d <= 59.

Lemma loadRTCTime_valid found now ms s s' :
  clock_valid s -> loadRTCTime isValid found now ms s = Some s' ->
  clock_valid s'.
Proof.
  unfold loadRTCTime; intros Hv H.
  destruct (negb found); [discriminate|].
  destruct (negb (rtcPresent s)); [injection H as <-; exact Hv|].
  destruct (isValid now) eqn:E; simpl in H; injection H as <-.
  - destruct (isValid_time now E) as [Hh Hm].
    unfold clock_valid; fields; wrap_lia.
  - exact Hv.
Qed.

Lemma reachable_valid s : reachable isValid s -> clock_valid s.
Proof.
  induction 1 as [found now ms s H|i s _ IH].
  - apply (loadRTCTime_valid found now ms initial s); [|exact H].
    unfold clock_valid; simpl; lia.
  - apply loop_valid, IH.
Qed.

(** C6.  In every state the sketch can reach, [clockHour] is between 0
    and 23 and [clockMinute] between 0 and 59, and they still are after a
    minute rollover, after a rotation of the encoder in any mode, after a
    load from the RTC and after a whole call of [loop()].  The rollover
    counts the minute up below 59; from 59 it sets the minute to 0 and
    counts the hour up, with 0 after 23. *)
Theorem clock_always_valid (s : State) :
  reachable isValid s ->
  clock_valid s
  /\ clock_valid (minute_rollover s)
  /\ (forall i, clock_valid (encoder_block i s))
  /\ (forall found now ms s',
        loadRTCTime isValid found now ms s = Some s' -> clock_valid s')
  /\ (forall i, clock_valid (loop i s))
  /\ (clockMinute s < 59 ->
        clockMinute (minute_rollover s) = clockMinute s + 1
        /\ clockHour (minute_rollover s) = clockHour s)
  /\ (clockMinute s = 59 ->
        clockMinute (minute_rollover s) = 0
        /\ clockHour (minute_rollover s)
           = if clockHour s =? 23 then 0 else clockHour s + 1).
Proof.
  intros Hr; apply reachable_valid in Hr.
  split; [exact Hr|].
  split; [apply minute_rollover_valid, Hr|].
  split; [intros i; apply encoder_block_valid, Hr|].
  split; [intros found now ms s'; apply loadRTCTime_valid, Hr|].
  split; [intros i; apply loop_valid, Hr|].
  destruct Hr as [Hh Hm].
  unfold minute_rollover, next_hour; split; intros H; branches;
    split; wrap_lia.
Qed.

End ClockValidity.

Lemma clock_always_valid_witness :
  clock_valid (run [wait 30001; wait 30002] after_setup)
  /\ clockMinute (run [wait 30001; wait 30002] after_setup) = 1.
Proof.
  split.
  - exact (proj1 (clock_always_valid rtc_ok rtc_ok_time
                    (run [wait 30001; wait 30002] after_setup)
                    (reachable_run rtc_ok [wait 30001; wait 30002]
                       after_setup after_setup_reachable))).
  - vm_compute; reflexivity.
Defined.

(** ** C7: the timeout of SET_TIMER *)

Lemma run_app ins1 ins2 : forall s,
  run (ins1 ++ ins2) s = run ins2 (run ins1 s).
Proof.
  induction ins1 as [|i rest IH]; intros s; simpl; [reflexivity|apply IH].
Qed.

Lemma timeout_block_due i s :
  state s = SET_TIMER -> displayTimeoutMillis s <> 0 ->
  since_activity i s > TIMER_DISPLAY_TIMEOUT ->
  state (timeout_block i s) = CLOCK
  /\ timerSeconds (timeout_block i s) = 0
  /\ timerStartSeconds (timeout_block i s) = 0.
Proof.
  unfold since_activity, timeout_block; intros Hs Hd Ht; rewrite Hs.
  apply Z.eqb_neq in Hd; rewrite Hd.
  apply Z.gt_lt, Z.gtb_lt in Ht; rewrite Ht; fields; auto.
Qed.

Lemma timeout_block_not_due i s :
  state s = SET_TIMER -> displayTimeoutMillis s <> 0 ->
  since_activity i s <= TIMER_DISPLAY_TIMEOUT ->
  timeout_block i s = s.
Proof.
  unfold since_activity, timeout_block; intros Hs Hd Ht; rewrite Hs.
  apply Z.eqb_neq in Hd; rewrite Hd.
  destruct (_ >? _) eqn:E; [to_Z; lia|reflexivity].
Qed.

(** The blocks before the timeout, in SET_TIMER with nothing happening. *)
Lemma before_timeout_idle i s :
  state s = SET_TIMER -> idle i -> buttonPushedMillis s = 0 ->
  let s' := button_block i (encoder_block i
              (second_block i (clock_block i s))) in
  state s' = SET_TIMER
  /\ timerSeconds s' = timerSeconds s
  /\ timerStartSeconds s' = timerStartSeconds s
  /\ buttonPushedMillis s' = 0
  /\ displayTimeoutMillis s' = displayTimeoutMillis s.
Proof.
  intros Hs (He & Hf & Hr) Hb.
  destruct (clock_block_frame i s) as (C1 & C2 & C3 & C4 & C5).
  destruct (second_block_other_mode i (clock_block i s)) as (S1 & S2);
    [congruence|].
  destruct (second_block_frame i (clock_block i s))
    as (_ & _ & S3 & S4 & S5).
  rewrite (encoder_block_none i _ He).
  rewrite (button_block_idle i _ Hf Hr); [|congruence].
  cbv zeta; repeat split; congruence.
Qed.

Lemma loop_idle_times_out i s :
  state s = SET_TIMER -> idle i -> buttonPushedMillis s = 0 ->
  displayTimeoutMillis s <> 0 ->
  since_activity i s > TIMER_DISPLAY_TIMEOUT ->
  state (loop i s) = CLOCK
  /\ timerSeconds (loop i s) = 0
  /\ timerStartSeconds (loop i s) = 0.
Proof.
  intros Hs Hi Hb Hd Ht; unfold loop.
  destruct (before_timeout_idle i s Hs Hi Hb) as (B1 & B2 & B3 & B4 & B5).
  set (s4 := button_block i (encoder_block i
               (second_block i (clock_block i s)))) in *.
  destruct (timeout_block_due i s4) as (T1 & T2 & T3);
    [assumption|congruence|unfold since_activity in *; rewrite B5; exact Ht|].
  destruct (alarm_display_frame i (timeout_block i s4))
    as (A1 & A2 & A3 & _).
  repeat split; congruence.
Qed.

Lemma loop_idle_keeps_waiting i s :
  state s = SET_TIMER -> idle i -> buttonPushedMillis s = 0 ->
  displayTimeoutMillis s <> 0 ->
  since_activity i s <= TIMER_DISPLAY_TIMEOUT ->
  state (loop i s) = SET_TIMER
  /\ timerSeconds (loop i s) = timerSeconds s
  /\ timerStartSeconds (loop i s) = timerStartSeconds s
  /\ buttonPushedMillis (loop i s) = 0
  /\ displayTimeoutMillis (loop i s) = displayTimeoutMillis s.
Proof.
  intros Hs Hi Hb Hd Ht; unfold loop.
  destruct (before_timeout_idle i s Hs Hi Hb) as (B1 & B2 & B3 & B4 & B5).
  set (s4 := button_block i (encoder_block i
               (second_block i (clock_block i s)))) in *.
  rewrite (timeout_block_not_due i s4);
    [|assumption|congruence|unfold since_activity in *; rewrite B5; exact Ht].
  destruct (alarm_display_frame i s4) as (A1 & A2 & A3 & A4 & A5).
  repeat split; congruence.
Qed.

Lemma run_idle_keeps_waiting ins : forall s,
  state s = SET_TIMER -> buttonPushedMillis s = 0 ->
  displayTimeoutMillis s <> 0 ->
  Forall (fun j => idle j /\ since_activity j s <= TIMER_DISPLAY_TIMEOUT)
    ins ->
  state (run ins s) = SET_TIMER
  /\ timerSeconds (run ins s) = timerSeconds s
  /\ timerStartSeconds (run ins s) = timerStartSeconds s
  /\ buttonPushedMillis (run ins s) = 0
  /\ displayTimeoutMillis (run ins s) = displayTimeoutMillis s.
Proof.
  induction ins as [|j rest IH]; intros s Hs Hb Hd Hall; simpl.
  - auto.
  - inversion Hall as [|j' rest' [Hi Ht] Hrest]; subst.
    destruct (loop_idle_keeps_waiting j s Hs Hi Hb Hd Ht)
      as (L1 & L2 & L3 & L4 & L5).
    destruct (IH (loop j s)) as (R1 & R2 & R3 & R4 & R5);
      [assumption|assumption|congruence| |repeat split; congruence].
    eapply Forall_impl; [|exact Hrest].
    unfold since_activity; intros k [Hk1 Hk2]; rewrite L5; auto.
Qed.

Lemma encoder_block_set_timer i s :
  state s = SET_TIMER -> encoder_event i = true ->
  state (encoder_block i s) = SET_TIMER
  /\ displayTimeoutMillis (encoder_block i s) = 0.
Proof.
  intros Hs He; unfold encoder_block, encoder_timer; rewrite He, Hs.
  branches; split; congruence.
Qed.

Lemma rotation_restarts_timeout i s :
  state s = SET_TIMER -> buttonPushedMillis s = 0 ->
  encoder_event i = true -> fell i = false -> rose i = false ->
  state (loop i s) = SET_TIMER
  /\ displayTimeoutMillis (loop i s) = currentMillis i.
Proof.
  intros Hs Hb He Hf Hr; unfold loop.
  destruct (clock_block_frame i s) as (C1 & C2 & C3 & C4 & C5).
  destruct (second_block_other_mode i (clock_block i s)) as (S1 & S2);
    [congruence|].
  destruct (second_block_frame i (clock_block i s))
    as (_ & _ & S3 & S4 & S5).
  set (s2 := second_block i (clock_block i s)) in *.
  destruct (encoder_block_set_timer i s2) as (E1 & E2);
    [congruence|assumption|].
  destruct (encoder_block_frame i s2) as (_ & E3).
  rewrite (button_block_idle i _ Hf Hr); [|congruence].
  destruct (timeout_block_fresh i (encoder_block i s2) E1 E2)
    as (T1 & _ & _ & T2).
  destruct (alarm_display_frame i (timeout_block i (encoder_block i s2)))
    as (A1 & _ & _ & _ & A2).
  split; congruence.
Qed.

(** C7.  In SET_TIMER with no press under way, through calls of [loop()]
    with no rotation and no button edge: as long as no more than 60000 ms
    have passed since the reference [displayTimeoutMillis] the mode stays
    SET_TIMER and the timer is kept, and the first call after more than
    60000 ms sets the mode to CLOCK and both [timerSeconds] and
    [timerStartSeconds] to 0.  A call with a rotation instead keeps
    SET_TIMER and moves the reference to the time of that call. *)
Theorem set_timer_times_out (ins : list Input) (i : Input) (s : State) :
  state s = SET_TIMER -> buttonPushedMillis s = 0 ->
  displayTimeoutMillis s <> 0 ->
  Forall (fun j => idle j /\ since_activity j s <= TIMER_DISPLAY_TIMEOUT)
    ins ->
  idle i -> since_activity i s > TIMER_DISPLAY_TIMEOUT ->
  (state (run ins s) = SET_TIMER
   /\ timerSeconds (run ins s) = timerSeconds s
   /\ timerStartSeconds (run ins s) = timerStartSeconds s)
  /\ state (run (ins ++ [i]) s) = CLOCK
  /\ timerSeconds (run (ins ++ [i]) s) = 0
  /\ timerStartSeconds (run (ins ++ [i]) s) = 0
  /\ (forall j, encoder_event j = true -> fell j = false ->
        rose j = false ->
        state (loop j s) = SET_TIMER
        /\ displayTimeoutMillis (loop j s) = currentMillis j).
Proof.
  intros Hs Hb Hd Hall Hi Ht.
  destruct (run_idle_keeps_waiting ins s Hs Hb Hd Hall)
    as (R1 & R2 & R3 & R4 & R5).
  split; [auto|].
  assert (Hout : state (run (ins ++ [i]) s) = CLOCK
                 /\ timerSeconds (run (ins ++ [i]) s) = 0
                 /\ timerStartSeconds (run (ins ++ [i]) s) = 0).
  { rewrite run_app; simpl.
    apply loop_idle_times_out; try assumption; try congruence.
    unfold since_activity in *; rewrite R5; exact Ht. }
  destruct Hout as (O1 & O2 & O3); repeat split; try assumption;
    apply rotation_restarts_timeout; assumption.
Qed.

Lemma set_timer_times_out_witness :
  state (run ([wait 2000; wait 61000] ++ [wait 61001])
           (set_displayTimeoutMillis 1000 (in_mode SET_TIMER 30 30))) = CLOCK
  /\ timerSeconds (run ([wait 2000; wait 61000] ++ [wait 61001])
           (set_displayTimeoutMillis 1000 (in_mode SET_TIMER 30 30))) = 0
  /\ timerStartSeconds (run ([wait 2000; wait 61000] ++ [wait 61001])
           (set_displayTimeoutMillis 1000 (in_mode SET_TIMER 30 30))) = 0.
Proof.
  refine ((fun H => conj (proj1 (proj2 H))
             (conj (proj1 (proj2 (proj2 H)))
                   (proj1 (proj2 (proj2 (proj2 H))))))
          (set_timer_times_out [wait 2000; wait 61000] (wait 61001)
             (set_displayTimeoutMillis 1000 (in_mode SET_TIMER 30 30))
             _ _ _ _ _ _)).
  - reflexivity.
  - reflexivity.
  - discriminate.
  - repeat constructor; vm_compute; discriminate.
  - repeat constructor.
  - vm_compute; reflexivity.
Defined.

(** ** C4: the step of a rotation *)

Lemma encoder_block_timer i s :
  encoder_event i = true -> state s <> SET_HOUR -> state s <> SET_MINUTE ->
  encoder_block i s = encoder_timer (dir i) s.
Proof.
  intros He H1 H2; unfold encoder_block; rewrite He.
  destruct (state s); congruence.
Qed.

Lemma encoder_step_table ts d :
  0 <= ts + d < 65536 -> encoder_step ts d = table_step (ts + d) ts.
Proof.
  intros H; unfold encoder_step, table_step, u16.
  rewrite Z.mod_small by lia; reflexivity.
Qed.

Lemma table_step_values v ts :
  table_step v ts = 60 \/ table_step v ts = 30 \/ table_step v ts = 15
  \/ table_step v ts = 10 \/ table_step v ts = 5.
Proof. unfold table_step; branches; auto. Qed.

Lemma snap_up ts step :
  0 <= ts -> 0 < step ->
  (ts + (step - ts mod step)) mod step = 0
  /\ 0 < step - ts mod step <= step.
Proof.
  intros H0 Hs; split.
  - replace (ts + (step - ts mod step))
      with (ts - ts mod step + 1 * step) by ring.
    rewrite Z.mod_add by lia.
    rewrite Zminus_mod_idemp_r, Z.sub_diag; apply Z.mod_0_l; lia.
  - pose proof (Z.mod_pos_bound ts step Hs); lia.
Qed.

Lemma increase_step_snap st ts step :
  st <> COUNTDOWN -> 0 <= ts -> 0 < step <= 60 ->
  increase_step st ts step = step - ts mod step.
Proof.
  intros Hst H0 Hs; unfold increase_step.
  pose proof (Z.mod_pos_bound ts step (proj1 Hs)) as Hm.
  remember (ts mod step) as m eqn:Em; clear Em.
  destruct st; try congruence; simpl; unfold u8, u16;
    rewrite (Z.mod_small m 65536) by lia;
    rewrite (Z.mod_small (step - m) 65536) by lia;
    rewrite (Z.mod_small (step - m) 256) by lia; reflexivity.
Qed.

Lemma encoder_timer_increase d s :
  d > 0 -> 0 <= timerSeconds s <= 5999 ->
  timerSeconds (encoder_timer d s)
  = if timerSeconds s + increment s d <? 6000
    then timerSeconds s + increment s d
    else timerSeconds s.
Proof.
  intros Hd Hr; unfold encoder_timer, increment.
  assert (Hs : 0 < encoder_step (timerSeconds s) d <= 60)
    by (destruct (encoder_step_values (timerSeconds s) d)
          as [E|[E|[E|[E|E]]]]; rewrite E; lia).
  pose proof (increase_step_bounds (state s) (timerSeconds s) _
                (proj1 Hr) Hs) as Hi.
  apply Z.gt_lt, Z.gtb_lt in Hd; rewrite Hd; fields.
  unfold u16; rewrite !Z.mod_small by lia.
  branches; reflexivity.
Qed.

(** C4, as amended.  For a rotation that reaches the timer, with
    [timerSeconds + dir] inside the range of an [unsigned]: the step is
    read from the table at [timerSeconds + dir] (over 360 it is 60, over
    180 it is 30, over 60 it is 15), and below that it is 10 when
    [timerSeconds] is 0 and 5 otherwise.  On an increase outside COUNTDOWN
    the amount added is [step - timerSeconds mod step], which lands on a
    multiple of the step; in COUNTDOWN it is the whole step.  Either is
    added only when the sum stays below 6000. *)
Theorem encoder_step_policy (i : Input) (s : State) :
  encoder_event i = true -> state s <> SET_HOUR -> state s <> SET_MINUTE ->
  0 <= timerSeconds s <= 5999 ->
  0 <= timerSeconds s + dir i < 65536 ->
  let ts := timerSeconds s in
  let step := table_step (ts + dir i) ts in
  encoder_step ts (dir i) = step
  /\ (dir i > 0 -> state s <> COUNTDOWN ->
        (ts + (step - ts mod step)) mod step = 0
        /\ 0 < step - ts mod step <= step
        /\ timerSeconds (encoder_block i s)
           = if ts + (step - ts mod step) <? 6000
             then ts + (step - ts mod step) else ts)
  /\ (dir i > 0 -> state s = COUNTDOWN ->
        timerSeconds (encoder_block i s)
        = if ts + step <? 6000 then ts + step else ts).
Proof.
  intros He H1 H2 Hr Hw ts step.
  assert (Hstep : encoder_step ts (dir i) = step)
    by (apply encoder_step_table; exact Hw).
  assert (Hs : 0 < step <= 60)
    by (destruct (table_step_values (ts + dir i) ts)
          as [E|[E|[E|[E|E]]]]; unfold step; rewrite E; lia).
  split; [exact Hstep|].
  rewrite (encoder_block_timer i s He H1 H2).
  split; intros Hd Hm.
  - destruct (snap_up ts step (proj1 Hr) (proj1 Hs)) as [Hz Hb].
    split; [exact Hz|]; split; [exact Hb|].
    rewrite (encoder_timer_increase (dir i) s Hd Hr).
    unfold increment; fold ts; rewrite Hstep.
    rewrite (increase_step_snap (state s) ts step Hm (proj1 Hr) Hs).
    reflexivity.
  - rewrite (encoder_timer_increase (dir i) s Hd Hr).
    unfold increment, increase_step; fold ts; rewrite Hstep, Hm.
    reflexivity.
Qed.

Lemma encoder_step_policy_witness :
  encoder_step 358 4 = 60
  /\ timerSeconds (encoder_block (click_up 100) (in_mode SET_TIMER 358 0))
     = 360
  /\ timerSeconds (encoder_block (click_up 100) (in_mode COUNTDOWN 358 358))
     = 418.
Proof.
  split; [|split].
  - apply (encoder_step_policy (click_up 100) (in_mode SET_TIMER 358 0));
      solve [reflexivity | discriminate | vm_compute; split; discriminate
            | vm_compute; split; [discriminate|reflexivity]].
  - apply (encoder_step_policy (click_up 100) (in_mode SET_TIMER 358 0));
      solve [reflexivity | discriminate | vm_compute; split; discriminate
            | vm_compute; split; [discriminate|reflexivity]].
  - apply (encoder_step_policy (click_up 100) (in_mode COUNTDOWN 358 358));
      solve [reflexivity | discriminate | vm_compute; split; discriminate
            | vm_compute; split; [discriminate|reflexivity]].
Defined.

(** The claim as worded fails: at 360 s one click up in SET_TIMER uses the
    step 60 where the table on the current value gives 30, and the timer
    goes to 420, not 390; and in COUNTDOWN at 5990 s the whole step is not
    added. *)
Lemma step_table_counterexample :
  state (in_mode SET_TIMER 360 0) = SET_TIMER
  /\ encoder_event (click_up 100) = true
  /\ encoder_step (timerSeconds (in_mode SET_TIMER 360 0))
       (dir (click_up 100))
     <> claimed_step (timerSeconds (in_mode SET_TIMER 360 0))
  /\ timerSeconds (encoder_block (click_up 100) (in_mode SET_TIMER 360 0))
     <> 360 + claimed_step 360
  /\ timerSeconds (encoder_block (click_up 100)
                     (in_mode COUNTDOWN 5990 5990)) = 5990.
Proof.
  vm_compute; repeat split; discriminate.
Qed.

(** ** C8: the brightness *)

(** When the light counts as moved, for a reading of the 10-bit converter
    and a last reading that is one too, or the 1300 it starts from: the
    difference is taken on 16 bits without sign, so every fall of the
    reading counts, however small, and a rise counts only over 10. *)
Lemma ldr_moved_spec a last :
  0 <= a <= 1023 -> 0 <= last <= 1300 ->
  ldr_moved a last = true <-> a < last \/ last + 10 < a.
Proof.
  intros Ha Hl; unfold ldr_moved, abs_unsigned.
  destruct (Z_lt_le_dec a last) as [Hlt|Hge].
  - assert (E : u16 (a - last) = a - last + 65536)
      by (unfold u16; Z.div_mod_to_equations; lia).
    rewrite E.
    destruct (a - last + 65536 >? 0) eqn:E0; to_Z; [|lia].
    unfold u16; rewrite Z.mod_small by lia.
    split; [intros _; left; exact Hlt|intros _; apply Z.gtb_lt; lia].
  - assert (E : u16 (a - last) = a - last)
      by (unfold u16; rewrite Z.mod_small by lia; reflexivity).
    rewrite E.
    destruct (a - last >? 0) eqn:E0; to_Z.
    + unfold u16; rewrite Z.mod_small by lia.
      rewrite Z.gtb_ltb, Z.ltb_lt; lia.
    + replace (a - last) with 0 by lia; simpl.
      split; [discriminate|lia].
Qed.

Lemma alarm_brightness i s :
  state s = ALARM -> refresh_due i s = true ->
  brightness (display_block i s) = Some (7, blink s).
Proof.
  intros Hs Hd; unfold display_block; rewrite Hd; fields; rewrite Hs.
  reflexivity.
Qed.

(** C8, at the input where the code departs from it.  From the state after
    [setup()], a reading of 505 sets the brightness to 7; the next reading,
    495, is only 10 away and still sets the brightness to 1; the reading
    505 after that leaves it at 1. *)
Theorem hysteresis_misses_falling_light :
  brightness (run [light 200 505] after_setup) = Some (7, true)
  /\ brightness (run [light 200 505; light 400 495] after_setup)
     = Some (1, true)
  /\ brightness (run [light 200 505; light 400 495; light 600 505]
                   after_setup) = Some (1, true)
  /\ ldr_moved 495 505 = true
  /\ ldr_moved 505 495 = false.
Proof. vm_compute; repeat split; reflexivity. Qed.

(** ** C9: the encoder in CLOCK *)

(** The claim as worded fails: in CLOCK one click up changes the mode and
    [timerSeconds]. *)
Lemma encoder_in_clock_counterexample :
  state after_setup = CLOCK
  /\ encoder_event (click_up 100) = true
  /\ state (encoder_block (click_up 100) after_setup) <> state after_setup
  /\ timerSeconds (encoder_block (click_up 100) after_setup)
     <> timerSeconds after_setup
  /\ state (loop (click_up 100) after_setup) = SET_TIMER
  /\ timerSeconds (loop (click_up 100) after_setup) = 10.
Proof. vm_compute; repeat split; discriminate. Qed.

(** C9, as amended.  In CLOCK a rotation leaves [clockHour] and
    [clockMinute] as they are.  A rotation down leaves the mode CLOCK, and
    a [timerSeconds] of 0 at 0.  A rotation up sets the mode to SET_TIMER
    and adds the step to [timerSeconds] when the sum stays below 6000. *)
Theorem encoder_in_clock_mode (i : Input) (s : State) :
  state s = CLOCK -> encoder_event i = true ->
  0 <= timerSeconds s <= 5999 ->
  clockHour (encoder_block i s) = clockHour s
  /\ clockMinute (encoder_block i s) = clockMinute s
  /\ (dir i <= 0 ->
        state (encoder_block i s) = CLOCK
        /\ (timerSeconds s = 0 -> timerSeconds (encoder_block i s) = 0))
  /\ (dir i > 0 ->
        state (encoder_block i s) = SET_TIMER
        /\ timerSeconds (encoder_block i s)
           = if timerSeconds s + increment s (dir i) <? 6000
             then timerSeconds s + increment s (dir i)
             else timerSeconds s).
Proof.
  intros Hs He Hr.
  assert (Hb : encoder_block i s = encoder_timer (dir i) s)
    by (apply encoder_block_timer; congruence).
  repeat split.
  - rewrite Hb; unfold encoder_timer; branches; reflexivity.
  - rewrite Hb; unfold encoder_timer; branches; reflexivity.
  - rewrite Hb; unfold encoder_timer.
    destruct (dir i >? 0) eqn:E; to_Z; [lia|].
    rewrite andb_false_r; branches; assumption.
  - intros H0; apply decrement_at_zero; assumption.
  - rewrite Hb; unfold encoder_timer.
    destruct (dir i >? 0) eqn:E; to_Z; [|lia].
    branches; rewrite Hs in *; simpl in *; congruence.
  - rewrite Hb; apply encoder_timer_increase; assumption.
Qed.

Lemma encoder_in_clock_mode_witness :
  clockHour (encoder_block (click_up 100) after_setup) = 12
  /\ clockMinute (encoder_block (click_up 100) after_setup) = 0
  /\ state (encoder_block (click_down 100) after_setup) = CLOCK
  /\ state (encoder_block (click_up 100) after_setup) = SET_TIMER.
Proof.
  split; [|split; [|split]].
  - apply (encoder_in_clock_mode (click_up 100) after_setup);
      solve [reflexivity | vm_compute; split; discriminate].
  - apply (encoder_in_clock_mode (click_up 100) after_setup);
      solve [reflexivity | vm_compute; split; discriminate].
  - apply (encoder_in_clock_mode (click_down 100) after_setup);
      solve [reflexivity | vm_compute; split; discriminate
            | vm_compute; discriminate].
  - apply (encoder_in_clock_mode (click_up 100) after_setup);
      solve [reflexivity | vm_compute; split; discriminate].
Defined.

(** ** C10: a countdown turned down to 0 *)

Lemma second_block_at_zero i s :
  state s = COUNTDOWN -> timerSeconds s = 0 ->
  state (second_block i s) = COUNTDOWN
  /\ timerSeconds (second_block i s) = 0.
Proof.
  intros Hs Ht; unfold second_block, second_tick.
  destruct (second_due i s); fields; rewrite ?Hs, ?Ht; simpl; auto.
Qed.

Lemma encoder_block_at_zero i s :
  state s = COUNTDOWN -> timerSeconds s = 0 ->
  (encoder_event i = true -> dir i <= 0) ->
  state (encoder_block i s) = COUNTDOWN
  /\ timerSeconds (encoder_block i s) = 0.
Proof.
  intros Hs Ht Hq; split; [apply encoder_block_countdown, Hs|].
  destruct (encoder_event i) eqn:E.
  - apply decrement_at_zero; auto.
  - rewrite encoder_block_none; assumption.
Qed.

Lemma button_block_no_release i s :
  state s = COUNTDOWN -> rose i = false ->
  state (button_block i s) = COUNTDOWN
  /\ timerSeconds (button_block i s) = timerSeconds s.
Proof.
  intros Hs Hr.
  unfold button_block, button_rose, button_long, button_fell,
    short_release; rewrite Hr; simpl.
  branches; split; congruence.
Qed.

Lemma timeout_block_other_mode i s :
  state s <> SET_TIMER -> timeout_block i s = s.
Proof.
  unfold timeout_block; destruct (state s); congruence.
Qed.

(** From the encoder block on, COUNTDOWN at 0 stays as it is. *)
Lemma after_second_at_zero i s :
  state s = COUNTDOWN -> timerSeconds s = 0 -> quiet i ->
  state (display_block i (alarm_block i (timeout_block i
          (button_block i (encoder_block i s))))) = COUNTDOWN
  /\ timerSeconds (display_block i (alarm_block i (timeout_block i
          (button_block i (encoder_block i s))))) = 0.
Proof.
  intros Hs Ht [Hq Hr].
  destruct (encoder_block_at_zero i s Hs Ht Hq) as (E1 & E2).
  destruct (button_block_no_release i (encoder_block i s) E1 Hr)
    as (B1 & B2).
  rewrite (timeout_block_other_mode i (button_block i (encoder_block i s)))
    by congruence.
  destruct (alarm_display_frame i (button_block i (encoder_block i s)))
    as (A1 & A2 & _).
  split; congruence.
Qed.

Lemma loop_at_zero i s :
  state s = COUNTDOWN -> timerSeconds s = 0 -> quiet i ->
  state (loop i s) = COUNTDOWN /\ timerSeconds (loop i s) = 0.
Proof.
  intros Hs Ht Hq; unfold loop.
  destruct (clock_block_frame i s) as (C1 & C2 & _).
  destruct (second_block_at_zero i (clock_block i s)) as (S1 & S2);
    [congruence|congruence|].
  apply after_second_at_zero; assumption.
Qed.

Lemma run_at_zero ins : forall s,
  state s = COUNTDOWN -> timerSeconds s = 0 -> Forall quiet ins ->
  state (run ins s) = COUNTDOWN /\ timerSeconds (run ins s) = 0.
Proof.
  induction ins as [|j rest IH]; intros s Hs Ht Hall; simpl; [auto|].
  inversion Hall as [|j' rest' Hj Hrest]; subst.
  destruct (loop_at_zero j s Hs Ht Hj) as (L1 & L2).
  apply IH; assumption.
Qed.

(** C10.  Let the encoder block of a call of [loop()] find the mode
    COUNTDOWN and a rotation down whose step is all of [timerSeconds].
    The block takes [timerSeconds] to 0 and leaves the mode COUNTDOWN.
    When the button is not released in that call, the call ends in
    COUNTDOWN at 0, and so does every later call as long as no rotation up
    and no release comes: the second ticks take nothing off and the mode
    never becomes ALARM. *)
Theorem countdown_turned_to_zero (i : Input) (s : State) (ins : list Input) :
  state (second_block i (clock_block i s)) = COUNTDOWN ->
  encoder_event i = true -> dir i <= 0 ->
  encoder_step (timerSeconds (second_block i (clock_block i s))) (dir i)
  = timerSeconds (second_block i (clock_block i s)) ->
  rose i = false -> Forall quiet ins ->
  (state (encoder_block i (second_block i (clock_block i s))) = COUNTDOWN
   /\ timerSeconds (encoder_block i (second_block i (clock_block i s))) = 0)
  /\ (state (loop i s) = COUNTDOWN /\ timerSeconds (loop i s) = 0)
  /\ (state (run ins (loop i s)) = COUNTDOWN
      /\ timerSeconds (run ins (loop i s)) = 0
      /\ state (run ins (loop i s)) <> ALARM).
Proof.
  intros Hs He Hd Hstep Hr Hall.
  set (s2 := second_block i (clock_block i s)) in *.
  assert (E : state (encoder_block i s2) = COUNTDOWN
              /\ timerSeconds (encoder_block i s2) = 0).
  { split; [apply encoder_block_countdown, Hs|].
    rewrite encoder_block_timer by congruence.
    unfold encoder_timer.
    destruct (dir i >? 0) eqn:E0; to_Z; [lia|].
    unfold decrease_step; fields; rewrite Hs; simpl.
    rewrite Hstep, Z.geb_leb, Z.leb_refl; fields.
    rewrite Z.sub_diag, Hs; reflexivity. }
  assert (L : state (loop i s) = COUNTDOWN /\ timerSeconds (loop i s) = 0).
  { unfold loop; fold s2.
    destruct E as (E1 & E2).
    destruct (button_block_no_release i (encoder_block i s2) E1 Hr)
      as (B1 & B2).
    rewrite (timeout_block_other_mode i
               (button_block i (encoder_block i s2))) by congruence.
    destruct (alarm_display_frame i (button_block i (encoder_block i s2)))
      as (A1 & A2 & _).
    split; congruence. }
  split; [exact E|]; split; [exact L|].
  destruct L as (L1 & L2).
  destruct (run_at_zero ins (loop i s) L1 L2 Hall) as (R1 & R2).
  repeat split; congruence.
Qed.

Lemma countdown_turned_to_zero_witness :
  state (run [wait 1100; press 1200; wait 2100; wait 5000]
           (loop (click_down 100) (in_mode COUNTDOWN 5 30))) = COUNTDOWN
  /\ timerSeconds (run [wait 1100; press 1200; wait 2100; wait 5000]
           (loop (click_down 100) (in_mode COUNTDOWN 5 30))) = 0
  /\ state (run [wait 1100; press 1200; wait 2100; wait 5000]
           (loop (click_down 100) (in_mode COUNTDOWN 5 30))) <> ALARM.
Proof.
  apply (countdown_turned_to_zero (click_down 100)
           (in_mode COUNTDOWN 5 30)
           [wait 1100; press 1200; wait 2100; wait 5000]).
  - reflexivity.
  - reflexivity.
  - vm_compute; discriminate.
  - reflexivity.
  - reflexivity.
  - repeat constructor; discriminate.
Defined.

(** * Further properties of the sketch *)

(** ** The digits on the display *)

Lemma u8_small x : 0 <= x < 256 -> u8 x = x.
Proof. intros H; unfold u8; apply Z.mod_small, H. Qed.

(** X1.  With [timerSeconds] at most 5999, [showTimer] puts four decimal
    digits into the buffer, minutes then seconds, and they give
    [timerSeconds] back. *)
Theorem timer_digits_decode (s : State) :
  timer_in_range s ->
  (0 <= q0 (timer_digits s) <= 9 /\ 0 <= q1 (timer_digits s) <= 9
   /\ 0 <= q2 (timer_digits s) <= 5 /\ 0 <= q3 (timer_digits s) <= 9)
  /\ 60 * (10 * q0 (timer_digits s) + q1 (timer_digits s))
     + 10 * q2 (timer_digits s) + q3 (timer_digits s) = timerSeconds s.
Proof.
  unfold timer_in_range, timer_digits; intros H; cbn [q0 q1 q2 q3].
  assert (Hm : 0 <= timerSeconds s / 60 <= 99)
    by (split; [apply Z.div_pos; lia
               |apply Z.lt_succ_r, Z.div_lt_upper_bound; lia]).
  pose proof (Z.mod_pos_bound (timerSeconds s) 60 ltac:(lia)) as Hs.
  pose proof (Z.div_mod (timerSeconds s) 60 ltac:(lia)) as Ed.
  remember (timerSeconds s / 60) as m eqn:Em; clear Em.
  remember (timerSeconds s mod 60) as r eqn:Er; clear Er.
  rewrite (u8_small m), (u8_small r) by lia.
  assert (H0 : 0 <= m / 10 <= 9)
    by (split; [apply Z.div_pos; lia
               |apply Z.lt_succ_r, Z.div_lt_upper_bound; lia]).
  assert (H2 : 0 <= r / 10 <= 5)
    by (split; [apply Z.div_pos; lia
               |apply Z.lt_succ_r, Z.div_lt_upper_bound; lia]).
  pose proof (Z.mod_pos_bound m 10 ltac:(lia)) as H1.
  pose proof (Z.mod_pos_bound r 10 ltac:(lia)) as H3.
  pose proof (Z.div_mod m 10 ltac:(lia)) as E1.
  pose proof (Z.div_mod r 10 ltac:(lia)) as E3.
  rewrite (u8_small (m / 10)), (u8_small (m mod 10)),
    (u8_small (r / 10)), (u8_small (r mod 10)) by lia.
  repeat split; lia.
Qed.

Lemma timer_digits_decode_witness :
  60 * (10 * q0 (timer_digits (in_mode SET_TIMER 5999 0))
        + q1 (timer_digits (in_mode SET_TIMER 5999 0)))
  + 10 * q2 (timer_digits (in_mode SET_TIMER 5999 0))
  + q3 (timer_digits (in_mode SET_TIMER 5999 0))
  = timerSeconds (in_mode SET_TIMER 5999 0).
Proof.
  apply (proj2 (timer_digits_decode (in_mode SET_TIMER 5999 0)
                  ltac:(vm_compute; split; discriminate))).
Defined.

(** X2.  With a valid clock, [showClock] puts four decimal digits into the
    buffer: the first pair reads [clockHour], the second [clockMinute]. *)
Theorem clock_digits_decode (s : State) :
  clock_valid s ->
  (0 <= q0 (clock_digits s) <= 2 /\ 0 <= q1 (clock_digits s) <= 9
   /\ 0 <= q2 (clock_digits s) <= 5 /\ 0 <= q3 (clock_digits s) <= 9)
  /\ 10 * q0 (clock_digits s) + q1 (clock_digits s) = clockHour s
  /\ 10 * q2 (clock_digits s) + q3 (clock_digits s) = clockMinute s.
Proof.
  unfold clock_valid, clock_digits; intros [Hh Hm]; cbn [q0 q1 q2 q3].
  remember (clockHour s) as h eqn:Eh; clear Eh.
  remember (clockMinute s) as m eqn:Em; clear Em.
  assert (H0 : 0 <= h / 10 <= 2)
    by (split; [apply Z.div_pos; lia
               |apply Z.lt_succ_r, Z.div_lt_upper_bound; lia]).
  assert (H2 : 0 <= m / 10 <= 5)
    by (split; [apply Z.div_pos; lia
               |apply Z.lt_succ_r, Z.div_lt_upper_bound; lia]).
  pose proof (Z.mod_pos_bound h 10 ltac:(lia)) as H1.
  pose proof (Z.mod_pos_bound m 10 ltac:(lia)) as H3.
  pose proof (Z.div_mod h 10 ltac:(lia)) as E1.
  pose proof (Z.div_mod m 10 ltac:(lia)) as E3.
  rewrite (u8_small (h / 10)), (u8_small (h mod 10)),
    (u8_small (m / 10)), (u8_small (m mod 10)) by lia.
  repeat split; lia.
Qed.

Lemma clock_digits_decode_witness :
  10 * q0 (clock_digits after_setup) + q1 (clock_digits after_setup)
  = clockHour after_setup
  /\ 10 * q2 (clock_digits after_setup) + q3 (clock_digits after_setup)
     = clockMinute after_setup.
Proof.
  apply (proj2 (clock_digits_decode after_setup
                  ltac:(vm_compute; repeat split; discriminate))).
Defined.

Lemma lor_colon x :
  0 <= x < 128 -> Z.lor x 128 = x + 128.
Proof.
  intros H.
  assert (L : Z.land x 128 = 0).
  { apply Z.bits_inj'; intros n Hn.
    rewrite Z.land_spec, Z.bits_0.
    destruct (Z.eq_dec n 7) as [->|Hne].
    - replace (Z.testbit x 7) with false; [reflexivity|].
      symmetry; apply Z.testbit_false; [lia|].
      change (2 ^ 7) with 128; rewrite Z.div_small by lia; reflexivity.
    - change 128 with (2 ^ 7).
      rewrite Z.pow2_bits_false by lia; apply andb_false_r. }
  rewrite <- (Z.lxor_lor _ _ L); symmetry.
  apply Z.add_nocarry_lxor, L.
Qed.

Section DisplayBuffer.

Variable encodeDigit : Z -> Z.

(** The library gives seven segments, the eighth bit is the colon's. *)
Hypothesis encodeDigit_segments : forall d, 0 <= encodeDigit d < 128.

(** X3.  [refreshDisplay] writes the colon into bit 7 of the second byte
    and nowhere else: that byte is the segments of the second digit (or 0
    when the left pair is off) plus 128 exactly when the colon is asked
    for.  A pair that is off is blank, a first digit 0 is blank, and every
    other byte is the segments of its digit. *)
Theorem refreshDisplay_layout (b : Quad) (showColon showLeft showRight : bool) :
  q0 (refreshDisplay encodeDigit b showColon showLeft showRight)
  = (if showLeft && negb (q0 b =? 0) then encodeDigit (q0 b) else 0)
  /\ q1 (refreshDisplay encodeDigit b showColon showLeft showRight)
     = (if showLeft then encodeDigit (q1 b) else 0)
       + (if showColon then 128 else 0)
  /\ q2 (refreshDisplay encodeDigit b showColon showLeft showRight)
     = (if showRight then encodeDigit (q2 b) else 0)
  /\ q3 (refreshDisplay encodeDigit b showColon showLeft showRight)
     = (if showRight then encodeDigit (q3 b) else 0).
Proof.
  pose proof (encodeDigit_segments (q0 b)) as H0.
  pose proof (encodeDigit_segments (q1 b)) as H1.
  pose proof (encodeDigit_segments (q2 b)) as H2.
  pose proof (encodeDigit_segments (q3 b)) as H3.
  unfold refreshDisplay; cbn [q0 q1 q2 q3]; unfold u8.
  rewrite (Z.mod_small (encodeDigit (q0 b)) 256) by lia.
  rewrite (Z.mod_small (encodeDigit (q1 b)) 256) by lia.
  rewrite (Z.mod_small (encodeDigit (q2 b)) 256) by lia.
  rewrite (Z.mod_small (encodeDigit (q3 b)) 256) by lia.
  repeat split.
  - destruct showLeft, (q0 b =? 0); reflexivity.
  - destruct showLeft, showColon; try lia; try reflexivity.
    rewrite lor_colon by lia; rewrite Z.mod_small; lia.
Qed.

End DisplayBuffer.

Lemma seven_segment_range d : 0 <= seven_segment d < 128.
Proof.
  unfold seven_segment.
  assert (H : (Z.to_nat (Z.land d 15) < 16)%nat).
  { assert (0 <= Z.land d 15 < 16); [|lia].
    change 15 with (Z.ones 4); rewrite Z.land_ones by lia.
    apply Z.mod_pos_bound; lia. }
  remember (Z.to_nat (Z.land d 15)) as n eqn:En; clear En.
  do 16 (destruct n as [|n]; [simpl; lia|]); lia.
Qed.

Lemma refreshDisplay_layout_witness :
  q1 (refreshDisplay seven_segment (mkQuad 1 2 3 0) true true true)
  = seven_segment 2 + 128.
Proof.
  apply (proj1 (proj2 (refreshDisplay_layout seven_segment
                         seven_segment_range (mkQuad 1 2 3 0)
                         true true true))).
Defined.

(** ** The bell *)

Lemma bellSound_ok restart ms b :
  Bell.bell_ok b -> Bell.bell_ok (fst (Bell.bellSound restart ms b)).
Proof.
  unfold Bell.bell_ok, Bell.bellSound, Bell.VOLUME_STEPS, Bell.REPEAT_COUNT.
  intros (Hv & Hc & Hf).
  destruct restart; cbn [Bell.volume Bell.count Bell.previousMillis];
    repeat (branch; cbn [fst Bell.volume Bell.count Bell.previousMillis]);
    to_Z; unfold u8 in *; repeat split; intros;
    Z.div_mod_to_equations; lia.
Qed.

Lemma bellSound_tone restart ms b t :
  Bell.bell_ok b -> snd (Bell.bellSound restart ms b) = Some t ->
  Bell.frequency t = 2093 /\ 1 <= Bell.loudness t <= 9
  /\ Bell.duration t = 266 /\ Bell.background t = true.
Proof.
  unfold Bell.bell_ok, Bell.bellSound, Bell.VOLUME_STEPS, Bell.REPEAT_COUNT.
  intros (Hv & Hc & Hf).
  destruct restart; cbn [Bell.volume Bell.count Bell.previousMillis];
    repeat (branch; cbn [snd Bell.volume Bell.count Bell.previousMillis]);
    intros H; try discriminate; injection H as <-;
    cbn [Bell.frequency Bell.loudness Bell.duration Bell.background];
    repeat split; try reflexivity; lia.
Qed.

Lemma play_cons restart ms rest b :
  Bell.play ((restart, ms) :: rest) b
  = (fst (Bell.play rest (fst (Bell.bellSound restart ms b))),
     match snd (Bell.bellSound restart ms b) with
     | Some x => x :: snd (Bell.play rest (fst (Bell.bellSound restart ms b)))
     | None => snd (Bell.play rest (fst (Bell.bellSound restart ms b)))
     end).
Proof.
  simpl; destruct (Bell.bellSound restart ms b) as [b1 t]; cbn [fst snd].
  destruct (Bell.play rest b1) as [b2 ts]; reflexivity.
Qed.

(** X4.  However [bellSound] is called from its first call on, the volume
    stays between 1 and 9 and the count of rings between 0 and 3, and
    every tone it plays is the C7 of 2093 Hz for 266 ms, in the
    background, at a volume between 1 and 9. *)
Theorem bell_tones_in_range (calls : list (bool * Z)) :
  Bell.bell_ok (fst (Bell.play calls Bell.initial))
  /\ Forall (fun t => Bell.frequency t = 2093 /\ 1 <= Bell.loudness t <= 9
                      /\ Bell.duration t = 266 /\ Bell.background t = true)
       (snd (Bell.play calls Bell.initial)).
Proof.
  assert (H0 : Bell.bell_ok Bell.initial)
    by (unfold Bell.bell_ok; simpl;
        unfold Bell.VOLUME_STEPS, Bell.REPEAT_COUNT; lia).
  revert H0; generalize Bell.initial as b.
  induction calls as [|[restart ms] rest IH]; intros b Hb.
  - split; [exact Hb|constructor].
  - rewrite play_cons; cbn [fst snd].
    destruct (IH _ (bellSound_ok restart ms b Hb)) as [I1 I2].
    split; [exact I1|].
    destruct (snd (Bell.bellSound restart ms b)) as [t|] eqn:E;
      [constructor; [exact (bellSound_tone restart ms b t Hb E)|]|];
      exact I2.
Qed.

Lemma bellSound_counts ms b :
  Bell.bell_ok b ->
  Bell.tones_left (fst (Bell.bellSound false ms b))
  + (match snd (Bell.bellSound false ms b) with Some _ => 1 | None => 0 end)
  = Bell.tones_left b.
Proof.
  unfold Bell.bell_ok, Bell.tones_left, Bell.bellSound, Bell.VOLUME_STEPS,
    Bell.REPEAT_COUNT.
  intros (Hv & Hc & Hf).
  repeat (branch; cbn [fst snd Bell.volume Bell.count Bell.previousMillis]);
    to_Z; unfold u8 in *; Z.div_mod_to_equations; lia.
Qed.

Lemma tones_left_range b :
  Bell.bell_ok b -> 0 <= Bell.tones_left b <= 27.
Proof.
  unfold Bell.bell_ok, Bell.tones_left, Bell.VOLUME_STEPS,
    Bell.REPEAT_COUNT; intros (Hv & Hc & Hf).
  destruct (Z.eq_dec (Bell.count b) 3) as [E|E]; [rewrite Hf, E; lia|lia].
Qed.

(** X5.  Through calls without a restart, the tones played and the tones
    still to come add up to the tones that were to come: a ring of three
    times nine volumes gives 27 tones at most, however often and whenever
    [bellSound] is called. *)
Theorem bell_plays_at_most_27 (calls : list (bool * Z)) (b : Bell.Bell) :
  Bell.bell_ok b -> Forall (fun c => fst c = false) calls ->
  Z.of_nat (length (snd (Bell.play calls b)))
  + Bell.tones_left (fst (Bell.play calls b)) = Bell.tones_left b
  /\ Z.of_nat (length (snd (Bell.play calls b))) <= 27.
Proof.
  intros Hb Hall.
  assert (G : Z.of_nat (length (snd (Bell.play calls b)))
              + Bell.tones_left (fst (Bell.play calls b))
              = Bell.tones_left b
              /\ Bell.bell_ok (fst (Bell.play calls b))).
  { revert b Hb; induction calls as [|[restart ms] rest IH]; intros b Hb.
    - split; [reflexivity|exact Hb].
    - inversion Hall as [|c l Hc Hrest]; subst; simpl in Hc; subst restart.
      rewrite play_cons; cbn [fst snd].
      destruct (IH Hrest _ (bellSound_ok false ms b Hb)) as [I1 I2].
      split; [|exact I2].
      pose proof (bellSound_counts ms b Hb) as Hcnt.
      destruct (snd (Bell.bellSound false ms b));
        cbn [length]; lia. }
  destruct G as [G1 G2]; split; [exact G1|].
  pose proof (tones_left_range _ G2); pose proof (tones_left_range _ Hb).
  lia.
Qed.

Lemma bell_plays_at_most_27_witness :
  Z.of_nat (length (snd (Bell.play
      [(false, 200); (false, 250); (false, 400); (false, 600)]
      Bell.initial))) <= 27.
Proof.
  apply (proj2 (bell_plays_at_most_27
                  [(false, 200); (false, 250); (false, 400); (false, 600)]
                  Bell.initial
                  ltac:(vm_compute; repeat split; discriminate)
                  ltac:(repeat constructor))).
Defined.

(** X6.  After the third ring the bell is silent: without a restart every
    call leaves the bell as it is and plays nothing.  A restart brings the
    first tone back at full volume as soon as more than [STEP_LENGTH]
    milliseconds have passed since the last tone. *)
Theorem bell_silent_until_restart (calls : list (bool * Z)) (b : Bell.Bell)
    (ms : Z) :
  Bell.count b = Bell.REPEAT_COUNT ->
  Forall (fun c => fst c = false) calls ->
  Bell.play calls b = (b, [])
  /\ (u32 (ms - Bell.previousMillis b) > Bell.STEP_LENGTH ->
      snd (Bell.bellSound true ms b)
      = Some (Bell.mkTone 2093 9 266 true)).
Proof.
  intros Hc Hall; split.
  - induction calls as [|[restart t] rest IH]; [reflexivity|].
    inversion Hall as [|c l Hf Hrest]; subst; simpl in Hf; subst restart.
    rewrite play_cons.
    assert (E : Bell.bellSound false t b = (b, None))
      by (unfold Bell.bellSound; rewrite Hc; reflexivity).
    rewrite E; cbn [fst snd]; rewrite (IH Hrest); reflexivity.
  - intros Hd; unfold Bell.bellSound.
    cbn [Bell.volume Bell.count Bell.previousMillis].
    apply Z.gt_lt, Z.gtb_lt in Hd; rewrite Hd; reflexivity.
Qed.

Lemma bell_silent_until_restart_witness :
  Bell.play [(false, 5000); (false, 6000)] (Bell.mkBell 9 3 4000)
  = (Bell.mkBell 9 3 4000, []).
Proof.
  apply (proj1 (bell_silent_until_restart [(false, 5000); (false, 6000)]
                  (Bell.mkBell 9 3 4000) 7000 eq_refl
                  ltac:(repeat constructor))).
Defined.

(** ** The bell and the alarm block *)

Lemma alarm_block_resetBell i s :
  state s = ALARM ->
  alarmStartMillis (alarm_block i s)
  = if resetBell i s then currentMillis i else alarmStartMillis s.
Proof.
  intros Hs; unfold alarm_block, resetBell; rewrite Hs.
  destruct (u32 (currentMillis i - previousMillis s) >=? ALARM_BLINK_MILLIS);
    fields;
    destruct ((u32 (currentMillis i - alarmStartMillis s)
                 >? BELL_REPEAT_INTERVAL) || (alarmStartMillis s =? 0));
    reflexivity.
Qed.

Lemma button_block_alarm_frame i s :
  state s = ALARM -> rose i = false ->
  state (button_block i s) = ALARM
  /\ alarmStartMillis (button_block i s) = alarmStartMillis s.
Proof.
  intros Hs Hr.
  unfold button_block, button_rose, button_long, button_fell,
    short_release; rewrite Hr; simpl.
  branches; split; congruence.
Qed.

Lemma display_block_alarmStart i s :
  alarmStartMillis (display_block i s) = alarmStartMillis s.
Proof. unfold display_block, apply_light; branches; reflexivity. Qed.

(** X7.  In the call of [loop()] in which the countdown runs out, with no
    rotation and no release in that call, the alarm block is reached in
    ALARM with [alarmStartMillis] at 0: it passes [resetBell = true] to
    [bellSound] and takes the time of the call as the start of the
    alarm. *)
Theorem bell_restarts_when_countdown_ends (i : Input) (s : State) :
  state s = COUNTDOWN -> timerSeconds s = 1 -> second_due i s = true ->
  encoder_event i = false -> rose i = false ->
  state (timeout_block i (button_block i (encoder_block i
           (second_block i (clock_block i s))))) = ALARM
  /\ resetBell i (timeout_block i (button_block i (encoder_block i
           (second_block i (clock_block i s))))) = true
  /\ state (loop i s) = ALARM
  /\ alarmStartMillis (loop i s) = currentMillis i.
Proof.
  intros Hs Ht Hd He Hr.
  destruct (clock_block_frame i s) as (C1 & C2 & _).
  set (s1 := clock_block i s) in *.
  assert (Hd1 : second_due i s1 = true)
    by (unfold s1; rewrite second_due_clock_block; assumption).
  assert (S1 : state (second_block i s1) = ALARM
               /\ alarmStartMillis (second_block i s1) = 0).
  { unfold second_block, second_tick; rewrite Hd1; fields.
    rewrite C1, Hs, C2, Ht; simpl; fields; auto. }
  destruct S1 as (S1 & S2).
  unfold loop; fold s1.
  rewrite (encoder_block_none i _ He).
  destruct (button_block_alarm_frame i (second_block i s1) S1 Hr)
    as (B1 & B2).
  rewrite (timeout_block_other_mode i (button_block i (second_block i s1)))
    by congruence.
  set (s4 := button_block i (second_block i s1)) in *.
  assert (R : resetBell i s4 = true)
    by (unfold resetBell; rewrite B2, S2; apply orb_true_r).
  destruct (alarm_display_frame i s4) as (A1 & _).
  repeat split; try assumption; try congruence.
  rewrite display_block_alarmStart, (alarm_block_resetBell i s4 B1), R.
  reflexivity.
Qed.

Lemma bell_restarts_when_countdown_ends_witness :
  resetBell (wait 1000)
    (timeout_block (wait 1000) (button_block (wait 1000)
       (encoder_block (wait 1000) (second_block (wait 1000)
          (clock_block (wait 1000) (in_mode COUNTDOWN 1 30)))))) = true
  /\ state (loop (wait 1000) (in_mode COUNTDOWN 1 30)) = ALARM
  /\ alarmStartMillis (loop (wait 1000) (in_mode COUNTDOWN 1 30)) = 1000.
Proof.
  apply (proj2 (bell_restarts_when_countdown_ends (wait 1000)
                  (in_mode COUNTDOWN 1 30) eq_refl eq_refl eq_refl
                  eq_refl eq_refl)).
Defined.

(** ** Saving the clock and loading it again *)

(** X8.  [saveTimeToRTC] writes nothing without the backing store;
    otherwise it writes the clock's hour and minute with the seconds at 0
    on 1 January 2000.  Loading what it wrote, when the library takes the
    reading for valid, gives the hour and the minute back and starts the
    minute at the time of loading. *)
Theorem save_then_load (isValid : DateTime -> bool) (s s0 : State)
    (ms : Z) :
  clock_valid s -> rtcPresent s0 = true ->
  (rtcPresent s = false -> saveTimeToRTC s = None)
  /\ (rtcPresent s = true ->
      exists d, saveTimeToRTC s = Some d
        /\ dt_second d = 0 /\ dt_hour d = clockHour s
        /\ dt_minute d = clockMinute s
        /\ (isValid d = true ->
            exists s', loadRTCTime isValid true d ms s0 = Some s'
              /\ clockHour s' = clockHour s
              /\ clockMinute s' = clockMinute s
              /\ minuteMillis s' = u32 ms)).
Proof.
  intros [Hh Hm] Hp; unfold saveTimeToRTC; split; intros Hr; rewrite Hr.
  - reflexivity.
  - eexists; split; [reflexivity|]; cbn [dt_second dt_hour dt_minute].
    repeat split; intros Hv.
    unfold loadRTCTime; rewrite Hp, Hv; simpl.
    eexists; split; [reflexivity|]; fields.
    cbn [dt_hour dt_minute dt_second].
    rewrite !u8_small by lia; rewrite Z.sub_0_r.
    repeat split; reflexivity.
Qed.

Lemma save_then_load_witness :
  exists d, saveTimeToRTC after_setup = Some d
    /\ dt_second d = 0 /\ dt_hour d = clockHour after_setup
    /\ dt_minute d = clockMinute after_setup
    /\ (rtc_ok d = true ->
        exists s', loadRTCTime rtc_ok true d 5000 initial = Some s'
          /\ clockHour s' = clockHour after_setup
          /\ clockMinute s' = clockMinute after_setup
          /\ minuteMillis s' = u32 5000).
Proof.
  apply (proj2 (save_then_load rtc_ok after_setup initial 5000
                  ltac:(vm_compute; repeat split; discriminate) eq_refl)).
  reflexivity.
Defined.

(** ** Setting the clock *)

(** X9.  In SET_HOUR a click up followed by a click down, or a click down
    followed by a click up, leaves a valid [clockHour] where it was, and in
    SET_MINUTE the same holds of [clockMinute].  In these two modes a
    rotation changes nothing but the value being set: the minute never
    carries into the hour, and the mode and the timer are not touched. *)
Theorem clock_edit_undo (up down : Input) (s : State) :
  clock_valid s -> state s = SET_HOUR \/ state s = SET_MINUTE ->
  encoder_event up = true -> dir up > 0 ->
  encoder_event down = true -> dir down <= 0 ->
  (clockHour (encoder_block down (encoder_block up s)) = clockHour s
   /\ clockMinute (encoder_block down (encoder_block up s)) = clockMinute s)
  /\ (clockHour (encoder_block up (encoder_block down s)) = clockHour s
      /\ clockMinute (encoder_block up (encoder_block down s))
         = clockMinute s)
  /\ (state s = SET_HOUR ->
      clockMinute (encoder_block up s) = clockMinute s
      /\ clockMinute (encoder_block down s) = clockMinute s)
  /\ (state s = SET_MINUTE ->
      clockHour (encoder_block up s) = clockHour s
      /\ clockHour (encoder_block down s) = clockHour s)
  /\ state (encoder_block up s) = state s
  /\ state (encoder_block down s) = state s
  /\ timerSeconds (encoder_block up s) = timerSeconds s
  /\ timerSeconds (encoder_block down s) = timerSeconds s.
Proof.
  intros [Hh Hm] Hmode Hu Hup Hd Hdown.
  apply Z.gt_lt, Z.gtb_lt in Hup.
  assert (Hdn : (dir down >? 0) = false)
    by (rewrite Z.gtb_ltb; apply Z.ltb_ge; lia).
  unfold encoder_block; rewrite Hu, Hd.
  destruct Hmode as [E|E]; rewrite E; fields; rewrite ?E, ?Hup, ?Hdn;
    unfold next_hour, prev_hour, next_minute, prev_minute;
    repeat split; try congruence; try reflexivity;
    branches; to_Z; unfold u8 in *; Z.div_mod_to_equations; lia.
Qed.

Lemma clock_edit_undo_witness :
  clockHour (encoder_block (click_down 200)
               (encoder_block (click_up 100)
                  (set_clockHour 23 (in_mode SET_HOUR 0 0)))) = 23
  /\ clockMinute (encoder_block (click_down 200)
               (encoder_block (click_up 100)
                  (set_clockHour 23 (in_mode SET_HOUR 0 0)))) = 0.
Proof.
  apply (proj1 (clock_edit_undo (click_up 100) (click_down 200)
                  (set_clockHour 23 (in_mode SET_HOUR 0 0))
                  ltac:(vm_compute; repeat split; discriminate)
                  (or_introl eq_refl) eq_refl eq_refl eq_refl
                  ltac:(vm_compute; discriminate))).
Defined.

(** ** The clock over a day *)

Lemma minute_rollover_minute_of_day s :
  clock_valid s ->
  minute_of_day (minute_rollover s) = (minute_of_day s + 1) mod 1440.
Proof.
  unfold clock_valid, minute_of_day, minute_rollover, next_hour.
  intros [Hh Hm]; branches; to_Z; unfold u8;
    rewrite ?(Z.mod_small (clockMinute s + 1) 256) by lia;
    rewrite ?(Z.mod_small (clockHour s + 1) 256) by lia.
  - rewrite Z.mod_small; lia.
  - rewrite Z.mod_small; lia.
  - replace (60 * clockHour s + clockMinute s + 1) with (1 * 1440) by lia.
    rewrite Z.mod_mul; lia.
Qed.

Lemma rollovers_minute_of_day n : forall s,
  clock_valid s ->
  clock_valid (rollovers n s)
  /\ minute_of_day (rollovers n s)
     = (minute_of_day s + Z.of_nat n) mod 1440.
Proof.
  induction n as [|n IH]; intros s Hv.
  - split; [exact Hv|]; simpl; rewrite Z.add_0_r, Z.mod_small;
      [reflexivity|unfold clock_valid, minute_of_day in *; lia].
  - cbn [rollovers].
    destruct (IH _ (minute_rollover_valid s Hv)) as [I1 I2].
    split; [exact I1|].
    rewrite I2, (minute_rollover_minute_of_day s Hv).
    rewrite Zplus_mod_idemp_l; f_equal; lia.
Qed.

Lemma rollovers_whole_day d s :
  Z.of_nat d = 1440 -> clock_valid s ->
  clockHour (rollovers d s) = clockHour s
  /\ clockMinute (rollovers d s) = clockMinute s.
Proof.
  intros Hd Hv.
  destruct (rollovers_minute_of_day d s Hv) as [[Hh Hm] D2].
  rewrite Hd in D2.
  replace (minute_of_day s + 1440) with (minute_of_day s + 1 * 1440)
    in D2 by ring.
  rewrite Z.mod_add in D2 by discriminate.
  destruct Hv as [Hh0 Hm0]; unfold minute_of_day in D2.
  rewrite Z.mod_small in D2 by lia.
  split; lia.
Qed.

(** X10.  Every minute rollover moves a valid clock one minute on, modulo
    the 1440 minutes of the day; so [n] rollovers move it [n] minutes on,
    and 1440 of them bring the same hour and minute back. *)
Theorem rollovers_count_minutes (n : nat) (s : State) :
  clock_valid s ->
  clock_valid (rollovers n s)
  /\ minute_of_day (rollovers n s)
     = (minute_of_day s + Z.of_nat n) mod 1440
  /\ clockHour (rollovers (Z.to_nat 1440) s) = clockHour s
  /\ clockMinute (rollovers (Z.to_nat 1440) s) = clockMinute s.
Proof.
  intros Hv.
  destruct (rollovers_minute_of_day n s Hv) as [R1 R2].
  split; [exact R1|]; split; [exact R2|].
  exact (rollovers_whole_day (Z.to_nat 1440) s
           (Z2Nat.id 1440 ltac:(discriminate)) Hv).
Qed.

Lemma rollovers_count_minutes_witness :
  minute_of_day (rollovers 61 after_setup)
  = (minute_of_day after_setup + Z.of_nat 61) mod 1440
  /\ clockHour (rollovers (Z.to_nat 1440) after_setup)
     = clockHour after_setup
  /\ clockMinute (rollovers (Z.to_nat 1440) after_setup)
     = clockMinute after_setup.
Proof.
  apply (proj2 (rollovers_count_minutes 61 after_setup
                  ltac:(vm_compute; repeat split; discriminate))).
Defined.

(** ** The countdown second by second *)

Lemma second_tick_counting s :
  state s = COUNTDOWN -> 0 < timerSeconds s < 65536 ->
  timerSeconds (second_tick s) = timerSeconds s - 1
  /\ state (second_tick s)
     = (if timerSeconds s =? 1 then ALARM else COUNTDOWN)
  /\ timerStartSeconds (second_tick s) = timerStartSeconds s.
Proof.
  intros Hs Ht; unfold second_tick; rewrite Hs.
  destruct (timerSeconds s >? 0) eqn:E; to_Z; [|lia]; fields.
  unfold u16; rewrite Z.mod_small by lia.
  destruct (timerSeconds s =? 1) eqn:E1; to_Z.
  - rewrite E1; simpl; fields; auto.
  - destruct (timerSeconds s - 1 =? 0) eqn:E2; to_Z; [lia|].
    fields; auto.
Qed.

Lemma ticks_in_alarm k : forall s,
  state s = ALARM -> ticks k s = s.
Proof.
  induction k as [|k IH]; intros s Hs; [reflexivity|].
  cbn [ticks].
  assert (E : second_tick s = s) by (unfold second_tick; rewrite Hs; reflexivity).
  rewrite E; apply IH, Hs.
Qed.

(** X11.  A countdown of [n] seconds: after [k < n] second ticks the mode
    is still COUNTDOWN and [n - k] seconds are left; the [n]th tick leaves
    0 seconds and sets the mode to ALARM, and further ticks change
    nothing. *)
Theorem countdown_takes_n_ticks (k : nat) (s : State) :
  state s = COUNTDOWN -> 0 < timerSeconds s < 65536 ->
  (Z.of_nat k < timerSeconds s ->
     state (ticks k s) = COUNTDOWN
     /\ timerSeconds (ticks k s) = timerSeconds s - Z.of_nat k)
  /\ (timerSeconds s <= Z.of_nat k ->
     state (ticks k s) = ALARM /\ timerSeconds (ticks k s) = 0).
Proof.
  revert s; induction k as [|k IH]; intros s Hs Ht.
  - split; intros H; [|lia].
    split; [exact Hs|simpl; lia].
  - destruct (second_tick_counting s Hs Ht) as (T1 & T2 & _).
    cbn [ticks].
    destruct (Z.eq_dec (timerSeconds s) 1) as [E1|E1].
    + assert (Ha : state (second_tick s) = ALARM)
        by (rewrite T2; apply Z.eqb_eq in E1; rewrite E1; reflexivity).
      rewrite (ticks_in_alarm k _ Ha).
      split; intros H; [lia|split; [exact Ha|lia]].
    + assert (Hc : state (second_tick s) = COUNTDOWN)
        by (rewrite T2; apply Z.eqb_neq in E1; rewrite E1; reflexivity).
      destruct (IH (second_tick s) Hc ltac:(lia)) as [I1 I2].
      rewrite T1 in I1, I2.
      split; intros H.
      * destruct I1 as [J1 J2]; [lia|]; split; [exact J1|lia].
      * apply I2; lia.
Qed.

Lemma countdown_takes_n_ticks_witness :
  state (ticks 125 (in_mode COUNTDOWN 125 125)) = ALARM
  /\ timerSeconds (ticks 125 (in_mode COUNTDOWN 125 125)) = 0.
Proof.
  apply (proj2 (countdown_takes_n_ticks 125 (in_mode COUNTDOWN 125 125)
                  eq_refl ltac:(vm_compute; split; reflexivity))).
  vm_compute; discriminate.
Defined.

(** ** How the mode and the timer go together *)

Lemma second_block_mode_inv i s :
  timer_inv s -> mode_inv s -> mode_inv (second_block i s).
Proof.
  unfold timer_inv, mode_inv, second_block, second_tick.
  intros [H1 H2] Hm.
  destruct (second_due i s); fields; [|exact Hm].
  destruct (state s) eqn:E; fields; rewrite ?E; try exact Hm.
  destruct (timerSeconds s >? 0) eqn:E0; fields; [|rewrite E; exact Hm].
  destruct (u16 (timerSeconds s - 1) =? 0) eqn:E1; fields; to_Z.
  - split; assumption.
  - rewrite E; exact Hm.
Qed.

Lemma encoder_timer_state d s :
  state (encoder_timer d s)
  = if negb (Mode_eqb (state s) COUNTDOWN) && (d >? 0)
    then SET_TIMER else state s.
Proof.
  unfold encoder_timer; branches; try reflexivity;
    rewrite ?Heqb, ?Heqb0, ?Heqb1, ?Heqb2 in *; congruence.
Qed.

Lemma encoder_block_mode_inv i s : mode_inv s -> mode_inv (encoder_block i s).
Proof.
  intros Hm.
  destruct (encoder_event i) eqn:He;
    [|rewrite encoder_block_none by assumption; exact Hm].
  destruct (encoder_block_frame i s) as (F1 & _).
  destruct (Z_le_gt_dec (dir i) 0) as [Hd|Hd].
  - assert (Ez : timerSeconds s = 0 -> timerSeconds (encoder_block i s) = 0)
      by (intros H0; apply decrement_at_zero; assumption).
    assert (Es : state (encoder_block i s) = state s).
    { unfold encoder_block; rewrite He.
      assert (E : (dir i >? 0) = false)
        by (rewrite Z.gtb_ltb; apply Z.ltb_ge; lia).
      destruct (state s) eqn:E0; fields; try assumption;
        rewrite encoder_timer_state, E, andb_false_r; exact E0. }
    unfold mode_inv in *; rewrite Es, F1.
    destruct (state s); try exact Hm; destruct Hm as [Hm1 Hm2];
      split; auto.
  - apply Z.gt_lt, Z.gtb_lt in Hd.
    unfold mode_inv in *; rewrite F1.
    unfold encoder_block; rewrite He, Hd.
    destruct (state s) eqn:E0; fields; rewrite ?E0; try exact Hm;
      rewrite encoder_timer_state, E0, Hd; simpl; auto.
Qed.

Lemma button_long_mode_inv i s :
  timer_inv s -> mode_inv s ->
  timer_inv (button_long i s) /\ mode_inv (button_long i s).
Proof.
  intros Ht Hm; unfold button_long.
  destruct (long_push_due i s); [|auto]; fields.
  unfold timer_inv, mode_inv in *.
  destruct (state s) eqn:E; fields; rewrite ?E; auto.
  split; [lia|exact I].
Qed.

Lemma button_rose_mode_inv i s :
  timer_inv s -> mode_inv s -> mode_inv (button_rose i s).
Proof.
  intros [H1 H2] Hm; unfold button_rose.
  destruct (short_release i s); [|auto]; fields.
  unfold mode_inv in *.
  destruct (state s) eqn:E; fields; rewrite ?E; auto.
  destruct (timerSeconds s >? 0) eqn:E0; to_Z.
  - unfold start_countdown; fields.
    destruct (timerStartSeconds s <? timerSeconds s) eqn:E1; fields; to_Z;
      lia.
  - fields; split; lia.
Qed.

Lemma button_block_mode_inv i s :
  timer_inv s -> mode_inv s -> mode_inv (button_block i s).
Proof.
  intros Ht Hm; unfold button_block.
  assert (F : timer_inv (button_fell i s) /\ mode_inv (button_fell i s))
    by (unfold button_fell, timer_inv, mode_inv in *;
        destruct (fell i); fields; auto).
  destruct F as [F1 F2].
  destruct (button_long_mode_inv i _ F1 F2) as [L1 L2].
  apply button_rose_mode_inv; assumption.
Qed.

Lemma timeout_block_mode_inv i s : mode_inv s -> mode_inv (timeout_block i s).
Proof.
  intros Hm.
  destruct (Mode_eqb (state s) SET_TIMER) eqn:E.
  - unfold timeout_block, mode_inv.
    destruct (state s) eqn:Es; try discriminate.
    match goal with
    | |- context [if ?b then _ else _] =>
        lazymatch b with
        | context [if _ then _ else _] => destruct b; fields
        end
    end; auto;
      destruct (displayTimeoutMillis s =? 0); fields; rewrite Es; exact I.
  - rewrite timeout_block_other_mode; [exact Hm|].
    intros Es; rewrite Es in E; discriminate.
Qed.

Lemma loop_mode_inv i s :
  timer_inv s -> mode_inv s -> mode_inv (loop i s).
Proof.
  intros Ht Hm; unfold loop.
  destruct (clock_block_frame i s) as (C1 & C2 & C3 & _).
  assert (T1 : timer_inv (clock_block i s))
    by (unfold timer_inv; rewrite C2, C3; exact Ht).
  assert (M1 : mode_inv (clock_block i s))
    by (unfold mode_inv; rewrite C1, C2, C3; exact Hm).
  pose proof (second_block_inv i _ T1) as T2.
  pose proof (second_block_mode_inv i _ T1 M1) as M2.
  pose proof (encoder_block_inv i _ T2) as T3.
  pose proof (encoder_block_mode_inv i _ M2) as M3.
  pose proof (button_block_mode_inv i _ T3 M3) as M4.
  pose proof (timeout_block_mode_inv i _ M4) as M5.
  destruct (alarm_display_frame i (timeout_block i (button_block i
              (encoder_block i (second_block i (clock_block i s))))))
    as (A1 & A2 & A3 & _).
  unfold mode_inv; rewrite A1, A2, A3; exact M5.
Qed.

Lemma reachable_mode_inv isValid s : reachable isValid s -> mode_inv s.
Proof.
  induction 1 as [found now ms s H|i s Hr IH].
  - unfold setup, loadRTCTime in H.
    repeat (revert H; branch; intros H); try discriminate;
      injection H as <-; unfold mode_inv; simpl; auto.
  - apply loop_mode_inv; [exact (reachable_inv _ _ Hr)|exact IH].
Qed.

(** X12.  In every state the sketch can reach: while the clock is shown or
    set (CLOCK, SET_HOUR, SET_MINUTE) both timer variables are 0; in ALARM
    [timerSeconds] is 0 and [timerStartSeconds] is positive; in COUNTDOWN
    [timerStartSeconds] is positive.  So the release of a short press in
    ALARM always leaves a positive time on the timer. *)
Theorem mode_and_timer_agree (isValid : DateTime -> bool) (s : State)
    (i : Input) :
  reachable isValid s ->
  mode_inv s
  /\ (state s = ALARM -> short_release i s = true ->
      state (button_rose i s) = SET_TIMER
      /\ timerSeconds (button_rose i s) > 0).
Proof.
  intros Hr; pose proof (reachable_mode_inv _ _ Hr) as Hm.
  split; [exact Hm|]; intros Hs Hrel.
  destruct (alarm_release i s Hs Hrel) as (B1 & B2 & _).
  unfold mode_inv in Hm; rewrite Hs in Hm.
  split; [exact B1|lia].
Qed.

Lemma mode_and_timer_agree_witness :
  mode_inv (run [click_up 100; press 400; release 500; wait 1500]
              after_setup).
Proof.
  exact (proj1 (mode_and_timer_agree rtc_ok
                  (run [click_up 100; press 400; release 500; wait 1500]
                     after_setup) (wait 0)
                  (reachable_run rtc_ok
                     [click_up 100; press 400; release 500; wait 1500]
                     after_setup after_setup_reachable))).
Defined.

(** ** The long press *)

Lemma timeout_block_bpm i s :
  buttonPushedMillis (timeout_block i s) = buttonPushedMillis s.
Proof. unfold timeout_block; branches; reflexivity. Qed.

Lemma button_block_no_press i s :
  buttonPushedMillis s = 0 -> fell i = false -> button_block i s = s.
Proof.
  intros Hb Hf.
  unfold button_block, button_fell; rewrite Hf.
  unfold button_long, long_push_due; rewrite Hb; simpl.
  unfold button_rose, short_release; rewrite Hb; simpl.
  rewrite andb_false_r; reflexivity.
Qed.

Lemma button_block_long i s :
  long_push_due i (button_fell i s) = true ->
  button_block i s = button_long i (button_fell i s)
  /\ buttonPushedMillis (button_block i s) = 0.
Proof.
  intros Hl; unfold button_block.
  assert (Hb : buttonPushedMillis (button_long i (button_fell i s)) = 0)
    by (unfold button_long; rewrite Hl; fields;
        destruct (state (button_fell i s)); reflexivity).
  assert (E : button_rose i (button_long i (button_fell i s))
              = button_long i (button_fell i s))
    by (unfold button_rose, short_release; rewrite Hb; simpl;
        rewrite andb_false_r; reflexivity).
  rewrite E; auto.
Qed.

Lemma loop_bpm i s :
  buttonPushedMillis (loop i s)
  = buttonPushedMillis
      (button_block i (encoder_block i (second_block i (clock_block i s))))
  /\ buttonPushedMillis (encoder_block i (second_block i (clock_block i s)))
     = buttonPushedMillis s.
Proof.
  unfold loop.
  destruct (clock_block_frame i s) as (_ & _ & _ & C4 & _).
  destruct (second_block_frame i (clock_block i s)) as (_ & _ & _ & S4 & _).
  destruct (encoder_block_frame i (second_block i (clock_block i s)))
    as (_ & E4).
  destruct (alarm_display_frame i (timeout_block i (button_block i
              (encoder_block i (second_block i (clock_block i s))))))
    as (_ & _ & _ & A4 & _).
  rewrite A4, timeout_block_bpm; split; congruence.
Qed.

Lemma run_no_press ins : forall s,
  buttonPushedMillis s = 0 -> Forall (fun j => fell j = false) ins ->
  buttonPushedMillis (run ins s) = 0.
Proof.
  induction ins as [|j rest IH]; intros s Hb Hall; [exact Hb|].
  inversion Hall as [|j' l Hf Hrest]; subst; cbn [run].
  apply IH; [|exact Hrest].
  destruct (loop_bpm j s) as [L1 L2].
  rewrite L1, button_block_no_press; congruence.
Qed.

(** X13.  When the long press falls due, the button block does what the
    long press does and nothing else, a release in the same call
    included: in SET_TIMER it clears both timer variables, in CLOCK it
    goes to SET_HOUR, in the other modes it changes neither the mode nor
    the timer.  The press is then forgotten: until the button goes down
    again no call tracks a press, so the long press does not fire a second
    time and the release that ends the hold does nothing. *)
Theorem long_press_fires_once (i : Input) (s : State) (ins : list Input) :
  long_push_due i (button_fell i s) = true ->
  Forall (fun j => fell j = false) ins ->
  button_block i s = button_long i (button_fell i s)
  /\ (state s = SET_TIMER ->
      state (button_block i s) = SET_TIMER
      /\ timerSeconds (button_block i s) = 0
      /\ timerStartSeconds (button_block i s) = 0)
  /\ (state s = CLOCK -> state (button_block i s) = SET_HOUR)
  /\ (state s <> SET_TIMER -> state s <> CLOCK ->
      state (button_block i s) = state s
      /\ timerSeconds (button_block i s) = timerSeconds s
      /\ timerStartSeconds (button_block i s) = timerStartSeconds s)
  /\ buttonPushedMillis (run ins (loop i s)) = 0
  /\ (forall j s', buttonPushedMillis s' = 0 -> fell j = false ->
        button_block j s' = s').
Proof.
  intros Hl Hall.
  destruct (button_block_long i s Hl) as [B1 B2].
  assert (Hst : state (button_fell i s) = state s
                /\ timerSeconds (button_fell i s) = timerSeconds s
                /\ timerStartSeconds (button_fell i s) = timerStartSeconds s)
    by (unfold button_fell; destruct (fell i); fields; auto).
  destruct Hst as (F1 & F2 & F3).
  assert (Hblk : button_block i s
                 = match state s with
                   | SET_TIMER =>
                       button_fell i s |> set_buttonPushedMillis 0
                         |> set_displayTimeoutMillis 0
                         |> set_timerSeconds 0 |> set_timerStartSeconds 0
                   | CLOCK =>
                       button_fell i s |> set_buttonPushedMillis 0
                         |> set_displayTimeoutMillis 0 |> set_state SET_HOUR
                   | _ =>
                       button_fell i s |> set_buttonPushedMillis 0
                         |> set_displayTimeoutMillis 0
                   end)
    by (rewrite B1; unfold button_long; rewrite Hl; fields; rewrite F1;
        reflexivity).
  split; [exact B1|].
  split; [intros H; rewrite Hblk, H; fields; rewrite F1; auto|].
  split; [intros H; rewrite Hblk, H; fields; reflexivity|].
  split; [intros H1 H2; rewrite Hblk;
          destruct (state s) eqn:E; fields; rewrite ?F1, ?F2, ?F3;
          try congruence; auto|].
  split; [|intros; apply button_block_no_press; assumption].
  apply run_no_press; [|exact Hall].
  destruct (loop_bpm i s) as [L1 L2]; rewrite L1.
  set (s3 := encoder_block i (second_block i (clock_block i s))) in *.
  assert (Hl3 : long_push_due i (button_fell i s3) = true).
  { rewrite <- Hl; apply long_push_due_ext.
    unfold button_fell; destruct (fell i); fields; congruence. }
  exact (proj2 (button_block_long i s3 Hl3)).
Qed.

Lemma long_press_fires_once_witness :
  state (button_block (wait 3500) (held 400 (in_mode CLOCK 0 0))) = SET_HOUR
  /\ buttonPushedMillis
       (run [wait 3600; release 3700]
          (loop (wait 3500) (held 400 (in_mode CLOCK 0 0)))) = 0.
Proof.
  split.
  - apply (long_press_fires_once (wait 3500) (held 400 (in_mode CLOCK 0 0))
             [wait 3600; release 3700] eq_refl
             ltac:(repeat constructor)); reflexivity.
  - apply (long_press_fires_once (wait 3500) (held 400 (in_mode CLOCK 0 0))
             [wait 3600; release 3700] eq_refl
             ltac:(repeat constructor)).
Defined.

(** ** Pausing the countdown *)

(** X14.  A short press in COUNTDOWN pauses: the mode becomes SET_TIMER
    and the seconds left stay.  The next press and release start the
    countdown again from the seconds left, and [timerStartSeconds] keeps
    the value the countdown was first started with, so that the alarm
    later brings back the whole time and not the rest. *)
Theorem pause_and_resume_keep_start (i j k : Input) (s : State) :
  state s = COUNTDOWN -> 0 < timerSeconds s ->
  timerSeconds s <= timerStartSeconds s ->
  short_release i s = true ->
  fell j = true -> currentMillis j <> 0 -> rose k = true ->
  (state (button_rose i s) = SET_TIMER
   /\ timerSeconds (button_rose i s) = timerSeconds s
   /\ timerStartSeconds (button_rose i s) = timerStartSeconds s)
  /\ (state (button_rose k (button_fell j (button_rose i s))) = COUNTDOWN
      /\ timerSeconds (button_rose k (button_fell j (button_rose i s)))
         = timerSeconds s
      /\ timerStartSeconds (button_rose k (button_fell j (button_rose i s)))
         = timerStartSeconds s).
Proof.
  intros Hs Hp Hle Hi Hj Hj0 Hk.
  assert (P : state (button_rose i s) = SET_TIMER
              /\ timerSeconds (button_rose i s) = timerSeconds s
              /\ timerStartSeconds (button_rose i s) = timerStartSeconds s)
    by (unfold button_rose; rewrite Hi; fields; rewrite Hs; fields; auto).
  split; [exact P|].
  destruct P as (P1 & P2 & P3).
  set (p := button_rose i s) in *.
  unfold button_fell; rewrite Hj.
  unfold button_rose at 1 2 3, short_release; rewrite Hk; fields.
  apply Z.eqb_neq in Hj0; rewrite Hj0; simpl; fields.
  rewrite P1, P2.
  destruct (timerSeconds s >? 0) eqn:E; to_Z; [|lia].
  unfold start_countdown; fields; rewrite P2, P3.
  destruct (timerStartSeconds s <? timerSeconds s) eqn:E1; to_Z; [lia|].
  fields; auto.
Qed.

Lemma pause_and_resume_keep_start_witness :
  state (button_rose (release 900) (button_fell (press 800)
           (button_rose (release 500) (held 400 (in_mode COUNTDOWN 20 30)))))
  = COUNTDOWN
  /\ timerSeconds (button_rose (release 900) (button_fell (press 800)
           (button_rose (release 500) (held 400 (in_mode COUNTDOWN 20 30)))))
     = 20
  /\ timerStartSeconds (button_rose (release 900) (button_fell (press 800)
           (button_rose (release 500) (held 400 (in_mode COUNTDOWN 20 30)))))
     = 30.
Proof.
  apply (proj2 (pause_and_resume_keep_start (release 500) (press 800)
                  (release 900) (held 400 (in_mode COUNTDOWN 20 30))
                  eq_refl eq_refl ltac:(vm_compute; discriminate)
                  eq_refl eq_refl ltac:(vm_compute; discriminate)
                  eq_refl)).
Defined.

(** ** The brightness of the display *)

Lemma ldr_brightness_levels a :
  ldr_brightness a = (if a >? LDR_MAX_LIGHT then 7 else 1).
Proof.
  unfold ldr_brightness, MachineInt.map.
  destruct (a >? LDR_MAX_LIGHT); [reflexivity|].
  replace ((a - 0) * (1 - 1)) with 0 by ring; reflexivity.
Qed.

Lemma brightness_frame i s :
  brightness (clock_block i s) = brightness s
  /\ brightness (second_block i s) = brightness s
  /\ brightness (encoder_block i s) = brightness s
  /\ brightness (timeout_block i s) = brightness s
  /\ brightness (alarm_block i s) = brightness s.
Proof.
  repeat split.
  - unfold clock_block, minute_rollover; branches; reflexivity.
  - unfold second_block, second_tick; branches; reflexivity.
  - unfold encoder_block, encoder_timer; branches; reflexivity.
  - unfold timeout_block; branches; reflexivity.
  - unfold alarm_block; branches; reflexivity.
Qed.

Lemma button_block_brightness i s :
  brightness (button_block i s) = brightness s.
Proof.
  unfold button_block.
  assert (R : forall x, brightness (button_rose i x) = brightness x)
    by (intros x; unfold button_rose, start_countdown;
        destruct (short_release i x); fields; [|reflexivity];
        destruct (state x); fields; try reflexivity;
        repeat (branch; fields); reflexivity).
  assert (L : forall x, brightness (button_long i x) = brightness x)
    by (intros x; unfold button_long;
        destruct (long_push_due i x); fields; [|reflexivity];
        destruct (state x); reflexivity).
  rewrite R, L; unfold button_fell; destruct (fell i); reflexivity.
Qed.

Lemma display_block_brightness_ok i s :
  brightness_ok s -> brightness_ok (display_block i s).
Proof.
  intros H; unfold display_block.
  destruct (refresh_due i s); [|exact H]; fields.
  assert (A : brightness_ok
                (apply_light (u16 (ldr i))
                   (set_displayRefreshMillis (currentMillis i) s))).
  { unfold apply_light; fields.
    destruct (ldr_moved (u16 (ldr i)) (lastLDRReading s)); [|exact H].
    unfold brightness_ok; fields; rewrite ldr_brightness_levels.
    destruct (u16 (ldr i) >? LDR_MAX_LIGHT); auto. }
  destruct (state s); try exact A.
  unfold brightness_ok; fields; auto.
Qed.

Lemma loop_brightness_ok i s : brightness_ok s -> brightness_ok (loop i s).
Proof.
  intros H; unfold loop; apply display_block_brightness_ok.
  unfold brightness_ok in *.
  destruct (brightness_frame i (timeout_block i (button_block i
     (encoder_block i (second_block i (clock_block i s))))))
    as (_ & _ & _ & _ & A).
  destruct (brightness_frame i (button_block i
     (encoder_block i (second_block i (clock_block i s)))))
    as (_ & _ & _ & T & _).
  destruct (brightness_frame i (second_block i (clock_block i s)))
    as (_ & _ & E & _).
  destruct (brightness_frame i (clock_block i s)) as (_ & S & _).
  destruct (brightness_frame i s) as (C & _).
  rewrite A, T, button_block_brightness, E, S, C; exact H.
Qed.

(** X15.  In every state the sketch can reach, the last brightness asked
    of the display, if any, is level 7, or level 1 with the display on:
    the [map] call of the sketch has the same lower and upper output and
    gives 1 for every reading, so no level between the two is ever
    used. *)
Theorem brightness_is_1_or_7 (isValid : DateTime -> bool) (s : State) :
  reachable isValid s ->
  brightness_ok s
  /\ (forall a, ldr_brightness a = 7 \/ ldr_brightness a = 1).
Proof.
  intros Hr; split.
  - induction Hr as [found now ms s H|i s Hr IH].
    + unfold setup, loadRTCTime in H.
      repeat (revert H; branch; intros H); try discriminate;
        injection H as <-; exact I.
    + apply loop_brightness_ok, IH.
  - intros a; rewrite ldr_brightness_levels.
    destruct (a >? LDR_MAX_LIGHT); auto.
Qed.

Lemma brightness_is_1_or_7_witness :
  brightness_ok (run [light 200 600; light 400 300] after_setup).
Proof.
  exact (proj1 (brightness_is_1_or_7 rtc_ok
                  (run [light 200 600; light 400 300] after_setup)
                  (reachable_run rtc_ok [light 200 600; light 400 300]
                     after_setup after_setup_reachable))).
Defined.

Lemma apply_light_cases a s :
  0 <= a <= 1023 -> 0 <= lastLDRReading s <= 1300 ->
  (a < lastLDRReading s \/ lastLDRReading s + 10 < a ->
     brightness (apply_light a s)
     = Some (if a >? LDR_MAX_LIGHT then 7 else 1, true)
     /\ lastLDRReading (apply_light a s) = a)
  /\ (lastLDRReading s <= a <= lastLDRReading s + 10 ->
     apply_light a s = s).
Proof.
  intros Ha Hl; unfold apply_light.
  pose proof (ldr_moved_spec a (lastLDRReading s) Ha Hl) as Hm.
  destruct (ldr_moved a (lastLDRReading s)) eqn:E; split; intros H.
  - fields; rewrite ldr_brightness_levels; split; [reflexivity|].
    unfold s16; rewrite Z.mod_small by lia.
    destruct (a <? 32768) eqn:E1; to_Z; [reflexivity|lia].
  - destruct (proj1 Hm eq_refl); lia.
  - discriminate (proj2 Hm H).
  - reflexivity.
Qed.

Lemma display_block_light i s :
  state s <> ALARM -> refresh_due i s = true -> 0 <= ldr i <= 1023 ->
  display_block i s
  = apply_light (ldr i) (set_displayRefreshMillis (currentMillis i) s).
Proof.
  intros Hs Hd Ha; unfold display_block; rewrite Hd; fields.
  unfold u16; rewrite Z.mod_small by lia.
  destruct (state s); congruence.
Qed.

(** X16.  Outside ALARM, at a refresh of the display, with a reading of
    the 10-bit converter and a last applied reading between 0 and 1300:
    the reading is applied (brightness 7 above 500 and 1 up to 500, and
    the reading remembered) exactly when it is below the last applied
    reading, by however little, or more than 10 above it; from the last
    applied reading up to 10 above it, brightness and remembered reading
    stay as they are. *)
Theorem light_applied_when (i : Input) (s : State) :
  state s <> ALARM -> refresh_due i s = true ->
  0 <= ldr i <= 1023 -> 0 <= lastLDRReading s <= 1300 ->
  (ldr i < lastLDRReading s \/ lastLDRReading s + 10 < ldr i ->
     brightness (display_block i s)
     = Some (if ldr i >? LDR_MAX_LIGHT then 7 else 1, true)
     /\ lastLDRReading (display_block i s) = ldr i)
  /\ (lastLDRReading s <= ldr i <= lastLDRReading s + 10 ->
     brightness (display_block i s) = brightness s
     /\ lastLDRReading (display_block i s) = lastLDRReading s).
Proof.
  intros Hs Hd Ha Hl.
  rewrite (display_block_light i s Hs Hd Ha).
  destruct (apply_light_cases (ldr i)
              (set_displayRefreshMillis (currentMillis i) s) Ha Hl)
    as [A1 A2].
  split; intros H.
  - exact (A1 H).
  - rewrite (A2 H); fields; auto.
Qed.

Lemma light_applied_when_witness :
  brightness (display_block (light 200 511)
                (set_lastLDRReading 505 after_setup))
  = brightness (set_lastLDRReading 505 after_setup)
  /\ lastLDRReading (display_block (light 200 511)
                (set_lastLDRReading 505 after_setup)) = 505.
Proof.
  apply (proj2 (light_applied_when (light 200 511)
                  (set_lastLDRReading 505 after_setup)
                  ltac:(discriminate) eq_refl
                  ltac:(vm_compute; split; discriminate)
                  ltac:(vm_compute; split; discriminate))).
  vm_compute; split; discriminate.
Defined.

(** X17.  A refresh in ALARM asks for level 7, with the display on or off
    after the blink flag, and forgets the last reading, so that the first
    refresh after the alarm applies the light again whatever it reads. *)
Theorem alarm_forces_brightness (i j : Input) (s s' : State) :
  state s = ALARM -> refresh_due i s = true ->
  (brightness (display_block i s) = Some (7, blink s)
   /\ lastLDRReading (display_block i s) = 1300)
  /\ (lastLDRReading s' = 1300 -> state s' <> ALARM ->
      refresh_due j s' = true -> 0 <= ldr j <= 1023 ->
      brightness (display_block j s')
      = Some (if ldr j >? LDR_MAX_LIGHT then 7 else 1, true)).
Proof.
  intros Hs Hd; split.
  - unfold display_block; rewrite Hd; fields; rewrite Hs; fields; auto.
  - intros Hl Hs' Hd' Ha.
    rewrite (display_block_light j s' Hs' Hd' Ha).
    apply (apply_light_cases (ldr j)
             (set_displayRefreshMillis (currentMillis j) s') Ha);
      fields; lia.
Qed.

Lemma alarm_forces_brightness_witness :
  brightness (display_block (light 200 300) (in_mode ALARM 0 30))
  = Some (7, blink (in_mode ALARM 0 30))
  /\ lastLDRReading (display_block (light 200 300) (in_mode ALARM 0 30))
     = 1300.
Proof.
  apply (proj1 (alarm_forces_brightness (light 200 300) (light 400 300)
                  (in_mode ALARM 0 30) after_setup eq_refl eq_refl)).
Defined.

(** ** Turning the timer down *)

Lemma decrease_step_snap st ts step :
  st <> COUNTDOWN -> 0 <= ts -> 0 < step <= 60 ->
  decrease_step st ts step
  = if ts mod step =? 0 then step else ts mod step.
Proof.
  intros Hst H0 Hs; unfold decrease_step.
  pose proof (Z.mod_pos_bound ts step (proj1 Hs)) as Hm.
  remember (ts mod step) as m eqn:Em; clear Em.
  assert (E : s16 (u16 m) = m).
  { unfold s16, u16; cbv zeta; rewrite !(Z.mod_small m 65536) by lia.
    destruct (m <? 32768) eqn:E1; to_Z; [reflexivity|lia]. }
  rewrite E.
  destruct st; try congruence; simpl;
    destruct (m =? 0); simpl; try reflexivity; apply u8_small; lia.
Qed.

Lemma encoder_timer_decrease d s :
  d <= 0 -> 0 <= timerSeconds s < 65536 ->
  0 < decrease_step (state s) (timerSeconds s)
        (encoder_step (timerSeconds s) d) ->
  timerSeconds (encoder_timer d s)
  = if timerSeconds s
         >=? decrease_step (state s) (timerSeconds s)
               (encoder_step (timerSeconds s) d)
    then timerSeconds s
         - decrease_step (state s) (timerSeconds s)
             (encoder_step (timerSeconds s) d)
    else timerSeconds s.
Proof.
  intros Hd Hr Hp; unfold encoder_timer.
  assert (E : (d >? 0) = false)
    by (rewrite Z.gtb_ltb; apply Z.ltb_ge; lia).
  rewrite E, andb_false_r; fields.
  destruct (timerSeconds s >=? _) eqn:E1; fields; [|reflexivity].
  to_Z; unfold u16; rewrite Z.mod_small by lia; reflexivity.
Qed.

(** X18.  A rotation down that reaches the timer, with a positive
    [timerSeconds] and [timerSeconds + dir] not below 0, where [step] is
    the step of the table at [timerSeconds + dir]: outside COUNTDOWN the
    timer goes down to the multiple of [step] next below it, and so by
    [step] at most; in COUNTDOWN it goes down by the whole [step] when it
    holds that much, and stays as it is when it does not. *)
Theorem encoder_decrease_policy (i : Input) (s : State) :
  encoder_event i = true -> state s <> SET_HOUR -> state s <> SET_MINUTE ->
  dir i <= 0 -> 0 < timerSeconds s <= 5999 ->
  0 <= timerSeconds s + dir i ->
  let ts := timerSeconds s in
  let step := table_step (ts + dir i) ts in
  (state s <> COUNTDOWN ->
     timerSeconds (encoder_block i s)
     = (if ts mod step =? 0 then ts - step else ts - ts mod step)
     /\ timerSeconds (encoder_block i s) mod step = 0
     /\ ts - step <= timerSeconds (encoder_block i s) < ts)
  /\ (state s = COUNTDOWN ->
     timerSeconds (encoder_block i s)
     = if ts >=? step then ts - step else ts).
Proof.
  intros He H1 H2 Hd Hr Hw ts step.
  assert (Hstep : encoder_step ts (dir i) = step)
    by (apply encoder_step_table; unfold ts; lia).
  assert (Hs : 0 < step <= 60)
    by (destruct (table_step_values (ts + dir i) ts)
          as [E|[E|[E|[E|E]]]]; unfold step; rewrite E; lia).
  rewrite (encoder_block_timer i s He H1 H2).
  pose proof (Z.mod_pos_bound ts step (proj1 Hs)) as Hm.
  pose proof (Z.div_mod ts step ltac:(lia)) as Ed.
  split; intros Hst.
  - assert (Eds : decrease_step (state s) ts (encoder_step ts (dir i))
                  = if ts mod step =? 0 then step else ts mod step)
      by (rewrite Hstep; apply decrease_step_snap;
          [exact Hst|unfold ts; lia|exact Hs]).
    rewrite (encoder_timer_decrease (dir i) s Hd);
      [|lia|fold ts; rewrite Eds; destruct (ts mod step =? 0) eqn:E0;
            to_Z; lia].
    fold ts; rewrite Eds.
    destruct (ts mod step =? 0) eqn:E0; to_Z.
    + assert (Hq : 1 <= ts / step).
      { destruct (Z_lt_le_dec (ts / step) 1) as [Hlt|]; [|assumption].
        assert (ts / step <= 0) by lia.
        assert (0 <= ts / step) by (apply Z.div_pos; unfold ts; lia).
        replace (ts / step) with 0 in Ed by lia; unfold ts in *; lia. }
      assert (Hge : step <= ts) by nia.
      destruct (ts >=? step) eqn:E1; to_Z; [|lia].
      split; [reflexivity|]; split; [|lia].
      replace (ts - step) with (ts + (-1) * step) by ring.
      rewrite Z.mod_add by lia; exact E0.
    + destruct (ts >=? ts mod step) eqn:E1; to_Z;
        [|pose proof (Z.mod_le ts step ltac:(unfold ts; lia) ltac:(lia));
          lia].
      split; [reflexivity|]; split; [|lia].
      rewrite Zminus_mod_idemp_r, Z.sub_diag; apply Z.mod_0_l; lia.
  - assert (Eds : decrease_step (state s) ts (encoder_step ts (dir i))
                  = step)
      by (rewrite Hstep; unfold decrease_step; rewrite Hst; reflexivity).
    rewrite (encoder_timer_decrease (dir i) s Hd);
      [|lia|fold ts; rewrite Eds; lia].
    fold ts; rewrite Eds; reflexivity.
Qed.

Lemma encoder_decrease_policy_witness :
  timerSeconds (encoder_block (click_down 100) (in_mode SET_TIMER 47 0))
  = 45
  /\ timerSeconds (encoder_block (click_down 100) (in_mode COUNTDOWN 47 60))
     = 42.
Proof.
  split.
  - apply (proj1 (encoder_decrease_policy (click_down 100)
                    (in_mode SET_TIMER 47 0) eq_refl
                    ltac:(discriminate) ltac:(discriminate)
                    ltac:(vm_compute; discriminate)
                    ltac:(vm_compute; split; [reflexivity|discriminate])
                    ltac:(vm_compute; discriminate))
            ltac:(discriminate)).
  - apply (proj2 (encoder_decrease_policy (click_down 100)
                    (in_mode COUNTDOWN 47 60) eq_refl
                    ltac:(discriminate) ltac:(discriminate)
                    ltac:(vm_compute; discriminate)
                    ltac:(vm_compute; split; [reflexivity|discriminate])
                    ltac:(vm_compute; discriminate))
            eq_refl).
Defined.

(** X19.  A rotation down by more than the seconds that are left, of 60
    pulses at most: the sum [timerSeconds + dir] wraps around as an
    [unsigned] and the step of the table is 60.  In COUNTDOWN the timer
    then stays as it is; in the other timer modes it goes to 0. *)
Theorem encoder_decrease_below_zero (i : Input) (s : State) :
  encoder_event i = true -> state s <> SET_HOUR -> state s <> SET_MINUTE ->
  -60 <= dir i -> 0 < timerSeconds s -> timerSeconds s + dir i < 0 ->
  encoder_step (timerSeconds s) (dir i) = 60
  /\ (state s = COUNTDOWN ->
      timerSeconds (encoder_block i s) = timerSeconds s)
  /\ (state s <> COUNTDOWN -> timerSeconds (encoder_block i s) = 0).
Proof.
  intros He H1 H2 Hd Hp Hw.
  assert (Hstep : encoder_step (timerSeconds s) (dir i) = 60).
  { unfold encoder_step, u16.
    replace ((timerSeconds s + dir i) mod 65536)
      with (timerSeconds s + dir i + 65536)
      by (apply Z.mod_unique with (q := -1); lia).
    destruct (timerSeconds s + dir i + 65536 >? 6 * 60) eqn:E; to_Z;
      [reflexivity|lia]. }
  split; [exact Hstep|].
  rewrite (encoder_block_timer i s He H1 H2).
  split; intros Hst.
  - rewrite (encoder_timer_decrease (dir i) s); try lia;
      rewrite Hstep; unfold decrease_step; rewrite Hst; simpl; [|lia].
    destruct (timerSeconds s >=? 60) eqn:E; to_Z; [lia|reflexivity].
  - assert (Eds : decrease_step (state s) (timerSeconds s) 60
                  = timerSeconds s).
    { rewrite decrease_step_snap by (try assumption; lia).
      rewrite Z.mod_small by lia.
      destruct (timerSeconds s =? 0) eqn:E; to_Z; [lia|reflexivity]. }
    rewrite (encoder_timer_decrease (dir i) s); try lia;
      rewrite Hstep, Eds; [|lia].
    rewrite Z.geb_leb, Z.leb_refl; lia.
Qed.

Lemma encoder_decrease_below_zero_witness :
  timerSeconds (encoder_block (click_down 100) (in_mode COUNTDOWN 3 60)) = 3
  /\ timerSeconds (encoder_block (click_down 100) (in_mode SET_TIMER 3 0))
     = 0.
Proof.
  split.
  - apply (encoder_decrease_below_zero (click_down 100)
             (in_mode COUNTDOWN 3 60) eq_refl
             ltac:(discriminate) ltac:(discriminate)
             ltac:(vm_compute; discriminate) eq_refl eq_refl).
    reflexivity.
  - apply (encoder_decrease_below_zero (click_down 100)
             (in_mode SET_TIMER 3 0) eq_refl
             ltac:(discriminate) ltac:(discriminate)
             ltac:(vm_compute; discriminate) eq_refl eq_refl).
    discriminate.
Defined.

(** ** The backing store *)

Lemma loop_rtcPresent i s : rtcPresent (loop i s) = rtcPresent s.
Proof.
  unfold loop.
  assert (C : forall x, rtcPresent (clock_block i x) = rtcPresent x)
    by (intros x; unfold clock_block, minute_rollover; branches;
        reflexivity).
  assert (S : forall x, rtcPresent (second_block i x) = rtcPresent x)
    by (intros x; unfold second_block, second_tick; branches; reflexivity).
  assert (E : forall x, rtcPresent (encoder_block i x) = rtcPresent x)
    by (intros x; unfold encoder_block, encoder_timer; branches;
        reflexivity).
  assert (R : forall x, rtcPresent (button_rose i x) = rtcPresent x)
    by (intros x; unfold button_rose, start_countdown;
        destruct (short_release i x); fields; [|reflexivity];
        destruct (state x); fields; try reflexivity;
        repeat (branch; fields); reflexivity).
  assert (L : forall x, rtcPresent (button_long i x) = rtcPresent x)
    by (intros x; unfold button_long;
        destruct (long_push_due i x); fields; [|reflexivity];
        destruct (state x); reflexivity).
  assert (F : forall x, rtcPresent (button_fell i x) = rtcPresent x)
    by (intros x; unfold button_fell; destruct (fell i); reflexivity).
  assert (T : forall x, rtcPresent (timeout_block i x) = rtcPresent x)
    by (intros x; unfold timeout_block; branches; reflexivity).
  assert (A : forall x, rtcPresent (alarm_block i x) = rtcPresent x)
    by (intros x; unfold alarm_block; branches; reflexivity).
  assert (D : forall x, rtcPresent (display_block i x) = rtcPresent x)
    by (intros x; unfold display_block, apply_light; branches;
        reflexivity).
  unfold button_block; rewrite D, A, T, R, L, F, E, S, C; reflexivity.
Qed.

Lemma run_rtcPresent ins : forall s,
  rtcPresent (run ins s) = rtcPresent s.
Proof.
  induction ins as [|i rest IH]; intros s; [reflexivity|].
  cbn [run]; rewrite IH; apply loop_rtcPresent.
Qed.

(** X20.  Without the RTC chip [setup()] never returns.  With the chip
    but with a reading the library does not take for valid, [setup()]
    leaves the clock at 00:00 and marks the backing store absent; no call
    of [loop()] marks it present again, so [saveTimeToRTC] writes nothing
    from then on. *)
Theorem invalid_rtc_is_never_written (isValid : DateTime -> bool)
    (now : DateTime) (ms : Z) (ins : list Input) :
  isValid now = false ->
  setup isValid false now ms = None
  /\ exists s, setup isValid true now ms = Some s
       /\ clockHour s = 0 /\ clockMinute s = 0
       /\ rtcPresent (run ins s) = false
       /\ saveTimeToRTC (run ins s) = None.
Proof.
  intros Hv; split; [reflexivity|].
  unfold setup, loadRTCTime; simpl; rewrite Hv; simpl.
  eexists; split; [reflexivity|].
  split; [reflexivity|]; split; [reflexivity|].
  assert (R : rtcPresent (run ins (set_rtcPresent false initial)) = false)
    by (rewrite run_rtcPresent; reflexivity).
  split; [exact R|unfold saveTimeToRTC; rewrite R; reflexivity].
Qed.

Lemma invalid_rtc_is_never_written_witness :
  setup rtc_ok false (mkDateTime 2000 1 1 25 0 0) 0 = None
  /\ exists s, setup rtc_ok true (mkDateTime 2000 1 1 25 0 0) 0 = Some s
       /\ clockHour s = 0 /\ clockMinute s = 0
       /\ rtcPresent (run [wait 100; wait 60000] s) = false
       /\ saveTimeToRTC (run [wait 100; wait 60000] s) = None.
Proof.
  apply (invalid_rtc_is_never_written rtc_ok (mkDateTime 2000 1 1 25 0 0)
           0 [wait 100; wait 60000] eq_refl).
Defined.

(** ** The encoder in ALARM *)

(** X21.  In ALARM, where [timerSeconds] is 0, a rotation up ends the
    alarm: the mode becomes SET_TIMER and [timerSeconds] the step of the
    table, 10 for a rotation of up to 60 pulses.  A rotation down leaves
    the alarm on and the timer at 0. *)
Theorem encoder_in_alarm (i : Input) (s : State) :
  state s = ALARM -> timerSeconds s = 0 -> encoder_event i = true ->
  (dir i > 0 ->
     state (encoder_block i s) = SET_TIMER
     /\ timerSeconds (encoder_block i s) = encoder_step 0 (dir i)
     /\ (dir i <= 60 -> timerSeconds (encoder_block i s) = 10))
  /\ (dir i <= 0 ->
     state (encoder_block i s) = ALARM
     /\ timerSeconds (encoder_block i s) = 0).
Proof.
  intros Hs Ht He.
  assert (Hb : encoder_block i s = encoder_timer (dir i) s)
    by (apply encoder_block_timer; congruence).
  split; intros Hd.
  - assert (Hst : state (encoder_block i s) = SET_TIMER).
    { rewrite Hb, encoder_timer_state, Hs.
      apply Z.gt_lt, Z.gtb_lt in Hd; rewrite Hd; reflexivity. }
    assert (Hv : timerSeconds (encoder_block i s) = encoder_step 0 (dir i)).
    { rewrite Hb, encoder_timer_increase by lia.
      unfold increment; rewrite Ht.
      rewrite increase_step_snap by
        (try congruence; try lia;
         destruct (encoder_step_values 0 (dir i))
           as [E|[E|[E|[E|E]]]]; rewrite E; lia).
      rewrite Z.mod_0_l, Z.sub_0_r, Z.add_0_l
        by (destruct (encoder_step_values 0 (dir i))
              as [E|[E|[E|[E|E]]]]; rewrite E; lia).
      destruct (encoder_step 0 (dir i) <? 6000) eqn:E0; to_Z;
        [reflexivity|].
      destruct (encoder_step_values 0 (dir i))
        as [E|[E|[E|[E|E]]]]; rewrite E in E0; lia. }
    split; [exact Hst|]; split; [exact Hv|].
    intros H60; rewrite Hv; unfold encoder_step, u16.
    rewrite Z.add_0_l, Z.mod_small by lia.
    repeat (branch; to_Z); try reflexivity; lia.
  - split; [|apply decrement_at_zero; assumption].
    rewrite Hb, encoder_timer_state, Hs.
    assert (E : (dir i >? 0) = false)
      by (rewrite Z.gtb_ltb; apply Z.ltb_ge; lia).
    rewrite E; reflexivity.
Qed.

Lemma encoder_in_alarm_witness :
  state (encoder_block (click_up 100) (in_mode ALARM 0 30)) = SET_TIMER
  /\ timerSeconds (encoder_block (click_up 100) (in_mode ALARM 0 30))
     = encoder_step 0 (dir (click_up 100))
  /\ (dir (click_up 100) <= 60 ->
      timerSeconds (encoder_block (click_up 100) (in_mode ALARM 0 30)) = 10).
Proof.
  apply (proj1 (encoder_in_alarm (click_up 100) (in_mode ALARM 0 30)
                  eq_refl eq_refl eq_refl)).
  reflexivity.
Defined.

(** ** The clock while it is being set *)

(** X22.  In SET_HOUR and SET_MINUTE the clock stands still: a call of
    [loop()] without a rotation changes neither [clockHour] nor
    [clockMinute] nor the minute reference [minuteMillis], however much
    time has passed, unless the release of a short press in SET_MINUTE
    ends the setting in that call. *)
Theorem clock_stands_while_set (i : Input) (s : State) :
  state s = SET_HOUR \/ state s = SET_MINUTE ->
  encoder_event i = false ->
  clockHour (loop i s) = clockHour s
  /\ clockMinute (loop i s) = clockMinute s
  /\ (state (loop i s) <> CLOCK -> minuteMillis (loop i s) = minuteMillis s).
Proof.
  intros Hs He; unfold loop.
  assert (C : clock_block i s
              = if u32 (currentMillis i - previousMillis s)
                     >=? SET_TIME_BLINK_MILLIS
                then s |> set_previousMillis (currentMillis i)
                       |> set_blink (negb (blink s))
                else s)
    by (unfold clock_block; destruct Hs as [E|E]; rewrite E; reflexivity).
  assert (C1 : state (clock_block i s) = state s
               /\ clockHour (clock_block i s) = clockHour s
               /\ clockMinute (clock_block i s) = clockMinute s
               /\ minuteMillis (clock_block i s) = minuteMillis s)
    by (rewrite C; branches; auto).
  destruct C1 as (C1 & C2 & C3 & C4).
  set (s1 := clock_block i s) in *.
  assert (S : second_block i s1
              = if second_due i s1
                then set_previousMillis (u32 (previousMillis s1 + 1000)) s1
                else s1)
    by (unfold second_block, second_tick; destruct (second_due i s1);
        fields; [|reflexivity];
        destruct Hs as [E|E]; rewrite C1, E; reflexivity).
  assert (S1 : state (second_block i s1) = state s
               /\ clockHour (second_block i s1) = clockHour s
               /\ clockMinute (second_block i s1) = clockMinute s
               /\ minuteMillis (second_block i s1) = minuteMillis s)
    by (rewrite S; branches; auto).
  destruct S1 as (S1 & S2 & S3 & S4).
  rewrite (encoder_block_none i _ He).
  set (s2 := second_block i s1) in *.
  destruct (button_block_clock i s2) as (B2 & B3).
  destruct (timeout_block_clock i (button_block i s2)) as (T2 & T3).
  destruct (alarm_block_frame i (timeout_block i (button_block i s2)))
    as (A1 & _ & _ & A2 & A3 & _).
  destruct (display_block_frame i
              (alarm_block i (timeout_block i (button_block i s2))))
    as (D1 & _ & _ & D2 & D3 & _).
  split; [congruence|]; split; [congruence|].
  rewrite D1, A1; intros Hn.
  assert (M : forall x, minuteMillis (display_block i x) = minuteMillis x)
    by (intros x; unfold display_block, apply_light; branches;
        reflexivity).
  assert (M' : forall x, minuteMillis (alarm_block i x) = minuteMillis x)
    by (intros x; unfold alarm_block; branches; reflexivity).
  assert (M'' : forall x, minuteMillis (timeout_block i x) = minuteMillis x)
    by (intros x; unfold timeout_block; branches; reflexivity).
  rewrite M, M', M'', <- S4.
  assert (Hb : state (button_block i s2) <> CLOCK).
  { intros Hc; apply Hn.
    rewrite timeout_block_other_mode; congruence. }
  revert Hb; unfold button_block, button_fell, button_long, button_rose.
  destruct (fell i); fields;
    match goal with
    | |- context [long_push_due i ?x] =>
        destruct (long_push_due i x); fields
    end;
    destruct Hs as [E|E]; rewrite S1, E; fields;
    match goal with
    | |- context [short_release i ?x] =>
        destruct (short_release i x); fields
    end; rewrite ?S1, ?E; fields; try reflexivity; congruence.
Qed.

Lemma clock_stands_while_set_witness :
  clockHour (loop (wait 200000) (in_mode SET_HOUR 0 0)) = 12
  /\ clockMinute (loop (wait 200000) (in_mode SET_HOUR 0 0)) = 0.
Proof.
  split.
  - apply (clock_stands_while_set (wait 200000) (in_mode SET_HOUR 0 0)
             (or_introl eq_refl) eq_refl).
  - apply (clock_stands_while_set (wait 200000) (in_mode SET_HOUR 0 0)
             (or_introl eq_refl) eq_refl).
Defined.

(** ** A press at time 0 *)

(** X23.  The sketch keeps 0 in [buttonPushedMillis] for "no press".  A
    press seen in a call in which [millis()] reads 0 is therefore not
    tracked: neither the long press nor the release acts on it, in the
    same call or, as long as the button does not go down again, in the
    calls after it. *)
Theorem press_at_zero_is_lost (i j : Input) (s : State) :
  buttonPushedMillis s = 0 -> fell i = true -> currentMillis i = 0 ->
  fell j = false ->
  button_block i s = s
  /\ button_block j (button_block i s) = s.
Proof.
  intros Hb Hf H0 Hj.
  assert (E : button_block i s = s).
  { unfold button_block, button_fell; rewrite Hf, H0.
    assert (Es : set_buttonPushedMillis 0 s = s)
      by (destruct s; simpl in *; subst; reflexivity).
    rewrite Es.
    unfold button_long, long_push_due; rewrite Hb; simpl.
    unfold button_rose, short_release; rewrite Hb; simpl.
    rewrite andb_false_r; reflexivity. }
  split; [exact E|].
  rewrite E; apply button_block_no_press; assumption.
Qed.

Lemma press_at_zero_is_lost_witness :
  button_block (release 100) (button_block (press 0) after_setup)
  = after_setup.
Proof.
  apply (proj2 (press_at_zero_is_lost (press 0) (release 100) after_setup
                  eq_refl eq_refl eq_refl eq_refl)).
Defined.

(** ** The length of the clock's hour *)

Lemma u32_add_idem a b : u32 (u32 a + b) = u32 (a + b).
Proof. unfold u32; apply Zplus_mod_idemp_l. Qed.

Lemma rollovers_app a : forall b s,
  rollovers (a + b) s = rollovers b (rollovers a s).
Proof.
  induction a as [|a IH]; intros b s; [reflexivity|].
  cbn [Nat.add rollovers]; apply IH.
Qed.

Lemma minute_rollover_below s :
  0 <= clockMinute s < 59 ->
  clockMinute (minute_rollover s) = clockMinute s + 1
  /\ clockHour (minute_rollover s) = clockHour s
  /\ u32 (minuteMillis (minute_rollover s))
     = u32 (minuteMillis s + 59994).
Proof.
  intros Hm; unfold minute_rollover; fields.
  destruct (clockMinute s <? 59) eqn:E; to_Z; [|lia]; fields.
  rewrite u8_small by lia.
  repeat split; unfold u32, MINUTE_MILIS; simpl; apply Z.mod_mod; lia.
Qed.

Lemma minute_rollover_at_59 s :
  clockMinute s = 59 ->
  clockMinute (minute_rollover s) = 0
  /\ clockHour (minute_rollover s) = next_hour (clockHour s)
  /\ u32 (minuteMillis (minute_rollover s))
     = u32 (minuteMillis s + 59919).
Proof.
  intros Hm; unfold minute_rollover; fields; rewrite Hm; simpl; fields.
  repeat split.
  unfold u32, MINUTE_MILIS, CLOCK_MILIS_CORRECTION_PER_HOUR; simpl.
  rewrite Z.mod_mod by lia.
  rewrite Zminus_mod_idemp_l; f_equal; lia.
Qed.

Lemma rollovers_below k : forall s,
  0 <= clockMinute s -> clockMinute s + Z.of_nat k <= 59 ->
  clockMinute (rollovers k s) = clockMinute s + Z.of_nat k
  /\ clockHour (rollovers k s) = clockHour s
  /\ u32 (minuteMillis (rollovers k s))
     = u32 (minuteMillis s + 59994 * Z.of_nat k).
Proof.
  induction k as [|k IH]; intros s H0 Hk.
  - cbn [rollovers]; repeat split; [lia|f_equal; lia].
  - cbn [rollovers].
    destruct (minute_rollover_below s ltac:(lia)) as (M1 & M2 & M3).
    destruct (IH (minute_rollover s) ltac:(lia) ltac:(lia))
      as (I1 & I2 & I3).
    split; [lia|]; split; [congruence|].
    rewrite I3, <- u32_add_idem, M3, u32_add_idem; f_equal; lia.
Qed.

(** X24.  Sixty minute rollovers of a valid clock are one hour: the minute
    is the same again, the hour is the next one (0 after 23), and the
    minute reference has moved by 3599565 ms modulo 2^32, that is sixty
    times [MINUTE_MILIS] less the one correction of 75 ms made when the
    minute passes 59. *)
Theorem sixty_rollovers_are_an_hour (s : State) :
  clock_valid s ->
  clockMinute (rollovers 60 s) = clockMinute s
  /\ clockHour (rollovers 60 s) = next_hour (clockHour s)
  /\ u32 (minuteMillis (rollovers 60 s))
     = u32 (minuteMillis s + 3599565).
Proof.
  intros [Hh Hm].
  remember (Z.to_nat (59 - clockMinute s)) as k1 eqn:Ek1.
  remember (Z.to_nat (clockMinute s)) as k2 eqn:Ek2.
  assert (E60 : (60 = k1 + (1 + k2))%nat) by lia.
  rewrite E60, rollovers_app, rollovers_app.
  destruct (rollovers_below k1 s ltac:(lia) ltac:(lia))
    as (A1 & A2 & A3).
  set (sa := rollovers k1 s) in *.
  assert (A59 : clockMinute sa = 59) by lia.
  cbn [rollovers].
  destruct (minute_rollover_at_59 sa A59) as (B1 & B2 & B3).
  set (sb := minute_rollover sa) in *.
  destruct (rollovers_below k2 sb ltac:(lia) ltac:(lia))
    as (C1 & C2 & C3).
  split; [lia|]; split; [congruence|].
  rewrite C3, <- u32_add_idem, B3, u32_add_idem.
  rewrite <- Z.add_assoc, <- (u32_add_idem (minuteMillis sa)), A3,
    u32_add_idem.
  f_equal; lia.
Qed.

Lemma sixty_rollovers_are_an_hour_witness :
  clockMinute (rollovers 60 after_setup) = clockMinute after_setup
  /\ clockHour (rollovers 60 after_setup)
     = next_hour (clockHour after_setup)
  /\ u32 (minuteMillis (rollovers 60 after_setup))
     = u32 (minuteMillis after_setup + 3599565).
Proof.
  apply (sixty_rollovers_are_an_hour after_setup
           ltac:(vm_compute; repeat split; discriminate)).
Defined.
